(** * Shallow embedding of the mechlib retrieval and consistency code

    Sources: src/backend/src/mechlib/vector_store.py (hybrid_search,
    _keyword_search), src/backend/src/mechlib/metadata_fetcher.py
    (Metadata.to_dict), src/backend/src/mechlib/img_processor.py
    (metadata_to_imgs, s3_uris_to_metadata, make_documents) and
    src/backend/src/api/routers/image.py (search_images, update_metadata,
    delete_image, get_document_by_s3_uri).

    Python floats are modelled by exact rationals [Q]; the external
    services (pgvector, Postgres full-text search, S3, ExifTool) are
    oracles passed as parameters. *)

From Stdlib Require Import List String Ascii Bool Arith Lia QArith Qminmax Sorted Permutation Lqa.
Import ListNotations.
Open Scope string_scope.

(* ------------------------------------------------------------------ *)
(** ** Python values and insertion-ordered dicts *)

(** Values stored in a document's metadata dict: [None], a [str] or a
    [list[str]] (the only shapes [Metadata.to_dict] and the update
    handler put there). *)
Inductive PyVal :=
| VNone
| VStr (s : string)
| VList (xs : list string).

(** A Python dict, in insertion order (Python 3.7+ semantics). *)
Definition dict (V : Type) := list (string * V).

Fixpoint dict_get {V} (k : string) (d : dict V) : option V :=
  match d with
  | [] => None
  | (k', v) :: d' => if String.eqb k k' then Some v else dict_get k d'
  end.

(** [d[k] = v]: overwrite in place if [k] is present, else append. *)
Fixpoint dict_set {V} (k : string) (v : V) (d : dict V) : dict V :=
  match d with
  | [] => [(k, v)]
  | (k', v') :: d' =>
      if String.eqb k k' then (k', v) :: d' else (k', v') :: dict_set k v d'
  end.

Definition dict_mem {V} (k : string) (d : dict V) : bool :=
  match dict_get k d with Some _ => true | None => false end.

Definition dict_values {V} (d : dict V) : list V := map snd d.

(** [k in lst] for a list of strings. *)
Definition py_in (k : string) (l : list string) : bool :=
  existsb (String.eqb k) l.

(** [lst.index(k)] (0-based, first occurrence); only called when
    [py_in k lst] holds. *)
Fixpoint py_index (k : string) (l : list string) : nat :=
  match l with
  | [] => 0
  | x :: l' => if String.eqb k x then 0 else S (py_index k l')
  end.

(** [max(a, b)] returns [a] unless [b > a]. *)
Definition py_max (a b : Q) : Q := if Qle_bool b a then a else b.

(** [sorted(xs, key=key)]: Python's sort is stable; a stable insertion
    sort computes the same list. *)
Section StableSort.
Context {A : Type} (key : A -> Q).

Fixpoint sort_insert (x : A) (l : list A) : list A :=
  match l with
  | [] => [x]
  | y :: l' =>
      if Qle_bool (key y) (key x) then y :: sort_insert x l'
      else x :: y :: l'
  end.

Definition py_sorted (l : list A) : list A :=
  fold_left (fun acc x => sort_insert x acc) l [].
End StableSort.

(* ------------------------------------------------------------------ *)
(** ** Documents *)

Record Document := mkDocument {
  page_content : string;
  metadata : dict PyVal
}.

(** [filename = doc.metadata.get('filename')] followed by [if filename:]. *)
Definition doc_filename (doc : Document) : option string :=
  match dict_get "filename" (metadata doc) with
  | Some (VStr s) => if String.eqb s "" then None else Some s
  | _ => None
  end.

(* ------------------------------------------------------------------ *)
(** ** VectorStoreManager.hybrid_search *)

Module VectorStore.
Section Hybrid.
(** [self.vector_store.similarity_search_with_score(query, k=...)]:
    (document, cosine distance) pairs, distance ascending. *)
Variable similarity_search_with_score : string -> nat -> list (Document * Q).
(** Rows of the full-text SQL query of [_keyword_search]: the
    [langchain_metadata->>'filename'] column ([None] for SQL NULL),
    ordered by [ts_rank] descending. *)
Variable keyword_rows : string -> nat -> list (option string).

(** [_keyword_search]: [[row[0] for row in cur.fetchall() if row[0]]]. *)
Definition _keyword_search (query : string) (k : nat) : list string :=
  flat_map (fun r => match r with
                     | Some s => if String.eqb s "" then [] else [s]
                     | None => []
                     end) (keyword_rows query k).

(** The loop building [semantic_map]: filename -> (doc, rank, distance). *)
Fixpoint build_semantic_map (rank : nat) (res : list (Document * Q))
    (acc : dict (Document * nat * Q)) : dict (Document * nat * Q) :=
  match res with
  | [] => acc
  | (doc, distance) :: res' =>
      let acc' := match doc_filename doc with
                  | Some f => dict_set f (doc, rank, distance) acc
                  | None => acc
                  end in
      build_semantic_map (S rank) res' acc'
  end.

(** Body of the first loop: the keyword boost. *)
Definition boosted_distance (keyword_filenames : list string)
    (filename : string) (distance : Q) : Q :=
  let base_distance := distance in
  if py_in filename keyword_filenames then
    let keyword_rank := (py_index filename keyword_filenames + 1)%nat in
    let keyword_boost := (3 # 10) * (1 / inject_Z (Z.of_nat keyword_rank)) in
    py_max 0 (base_distance - keyword_boost)
  else base_distance.

Definition process_semantic (keyword_filenames : list string)
    (semantic_map : dict (Document * nat * Q)) : dict (Document * Q) :=
  fold_left (fun acc '(filename, (doc, _rank, distance)) =>
               dict_set filename
                 (doc, boosted_distance keyword_filenames filename distance) acc)
            semantic_map [].

(** The second loop ("keyword-only results"). *)
Definition process_keyword (keyword_filenames : list string)
    (semantic_map : dict (Document * nat * Q))
    (hybrid_scores : dict (Document * Q)) : dict (Document * Q) :=
  fold_left (fun acc filename =>
               if negb (dict_mem filename acc) && dict_mem filename semantic_map
               then match dict_get filename semantic_map with
                    | Some (doc, _, distance) =>
                        dict_set filename (doc, py_max 0 (distance - (3 # 10))) acc
                    | None => acc
                    end
               else acc)
            keyword_filenames hybrid_scores.

(** The working map [hybrid_scores] before sorting. *)
Definition hybrid_scores (query : string) (k : nat) : dict (Document * Q) :=
  let fetch_k := (k * 3)%nat in
  let semantic_results := similarity_search_with_score query fetch_k in
  let semantic_map := build_semantic_map 1 semantic_results [] in
  let keyword_filenames := _keyword_search query fetch_k in
  let hs := process_semantic keyword_filenames semantic_map in
  process_keyword keyword_filenames semantic_map hs.

(** [hybrid_search(query, k, keyword_weight)]. *)
Definition hybrid_search (query : string) (k : nat) (keyword_weight : Q)
    : list (Document * Q) :=
  let sorted_results := py_sorted snd (dict_values (hybrid_scores query k)) in
  firstn k sorted_results.
End Hybrid.
End VectorStore.

(** The boost as the specification words it: a candidate whose filename
    sits at 1-based keyword rank [r] gets [max(0, distance - 0.3 / r)];
    others keep their distance. *)
Fixpoint keyword_rank_spec (f : string) (kws : list string) : option nat :=
  match kws with
  | [] => None
  | x :: kws' =>
      if String.eqb f x then Some 1%nat
      else option_map S (keyword_rank_spec f kws')
  end.

Definition adjusted_spec (kws : list string) (f : string) (d : Q) : Q :=
  match keyword_rank_spec f kws with
  | Some r => Qmax 0 (d - (3 # 10) / inject_Z (Z.of_nat r))
  | None => d
  end.

(** Spec scenario A: semantic candidates [(A,0.4),(B,0.6),(C,0.8)] and
    keyword ranking [[B,A]]. *)
Definition scenario_doc (f : string) : Document :=
  mkDocument f [("filename", VStr f)].

Definition scenario_semantic (_ : string) (_ : nat) : list (Document * Q) :=
  [(scenario_doc "A", 4 # 10); (scenario_doc "B", 6 # 10);
   (scenario_doc "C", 8 # 10)].

Definition scenario_keyword_rows (_ : string) (_ : nat) : list (option string) :=
  [Some "B"; Some "A"].

(* ------------------------------------------------------------------ *)
(** ** search_images (routers/image.py): threshold filtering *)

(** [SearchRequest] (api/schemas.py). *)
Record SearchRequest := mkSearchRequest {
  query : string;
  k : nat;
  score_threshold : Q;
  use_hybrid : bool;
  keyword_weight : Q
}.

(** The optional [message] of [SearchResponse]: the "closest match"
    hint carries the threshold and the minimum observed distance (the
    f-string renders them with [:.3f] / [:.2f]). *)
Inductive SearchMessage :=
| MsgClosest (threshold min_score : Q)
| MsgNoImages.

(** [SearchResponse]; each [ImageResult] is kept as its (document,
    score) pair, the presigned URL being a function of the document. *)
Record SearchResponse := mkSearchResponse {
  resp_query : string;
  results : list (Document * Q);
  total_count : nat;
  filtered_count : nat;
  message : option SearchMessage
}.

(** [min(s for _, s in results_with_scores)]: the first minimal score. *)
Definition py_min_score (l : list (Document * Q)) : option Q :=
  match l with
  | [] => None
  | (_, s0) :: l' =>
      Some (fold_left (fun m '(_, s) => if Qle_bool m s then m else s) l' s0)
  end.

Section Search.
Variable similarity_search_with_score : string -> nat -> list (Document * Q).
Variable keyword_rows : string -> nat -> list (option string).

Definition results_with_scores (request : SearchRequest) : list (Document * Q) :=
  let k := Nat.min (k request) 50 in
  if use_hybrid request then
    VectorStore.hybrid_search similarity_search_with_score keyword_rows
      (query request) k (keyword_weight request)
  else similarity_search_with_score (query request) k.

Definition search_images (request : SearchRequest) : SearchResponse :=
  let rws := results_with_scores request in
  let filtered_results :=
    filter (fun '(_, score) => Qle_bool score (score_threshold request)) rws in
  let message :=
    match filtered_results with
    | [] => match py_min_score rws with
            | Some min_score => Some (MsgClosest (score_threshold request) min_score)
            | None => Some MsgNoImages
            end
    | _ :: _ => None
    end in
  mkSearchResponse (query request) filtered_results (List.length rws)
    (List.length filtered_results) message.
End Search.

(** Spec scenario B: scenario A searched with [score_threshold = 0.5]. *)
Definition scenario_B_request : SearchRequest :=
  mkSearchRequest "q" 3 (1 # 2) true (1 # 2).

(* ------------------------------------------------------------------ *)
(** ** Metadata (metadata_fetcher.py) and the document builders *)

(** A [Metadata] object. [process] and [timestamp] are not set by
    [__init__]; handlers assign [process] afterwards, so they are
    optional attributes ([None] = attribute absent). *)
Record Metadata := mkMetadata {
  filename : string;
  description : PyVal;
  brand : PyVal;
  materials : PyVal;
  mechanism : PyVal;
  project : PyVal;
  person : PyVal;
  s3_url : PyVal;
  s3_uri : PyVal;
  process : option PyVal;
  timestamp : option PyVal
}.

(** [Metadata(filename)]. *)
Definition Metadata_init (fn : string) : Metadata :=
  mkMetadata fn VNone VNone (VList []) VNone VNone VNone VNone VNone None None.

Definition set_s3_uri (m : Metadata) (v : PyVal) : Metadata :=
  mkMetadata (filename m) (description m) (brand m) (materials m)
    (mechanism m) (project m) (person m) (s3_url m) v (process m) (timestamp m).

(** [Metadata.to_dict]. *)
Definition to_dict (m : Metadata) : dict PyVal :=
  [("filename", VStr (filename m));
   ("description", description m);
   ("brand", brand m);
   ("materials", materials m);
   ("mechanism", mechanism m);
   ("project", project m);
   ("person", person m);
   ("s3_url", VNone);
   ("s3_uri", VNone)].

(** [str(x)] as used by f-strings. A list of strings renders as its
    repr, each item in single quotes (exact for items without quotes,
    backslashes or non-printable characters). *)
Fixpoint str_join (sep : string) (xs : list string) : string :=
  match xs with
  | [] => ""
  | [x] => x
  | x :: xs' => x ++ sep ++ str_join sep xs'
  end.

Definition py_str (v : PyVal) : string :=
  match v with
  | VNone => "None"
  | VStr s => s
  | VList xs => "[" ++ str_join ", " (map (fun s => "'" ++ s ++ "'") xs) ++ "]"
  end.

(** [img_data.get(metadata.filename)] is truthy. *)
Definition s3_uris_to_metadata (img_data : dict string) (metadata_list : list Metadata)
    : list Metadata :=
  map (fun metadata =>
         match dict_get (filename metadata) img_data with
         | Some u => if String.eqb u "" then metadata else set_s3_uri metadata (VStr u)
         | None => metadata
         end) metadata_list.

(** The body of [make_documents] for one [Metadata]: the creation-path
    canonical text. *)
Definition make_document (metadata : Metadata) : Document :=
  let metadata_dict := to_dict metadata in
  let tag_string :=
    fold_left (fun acc '(key, value) => acc ++ key ++ ":" ++ py_str value ++ ", ")
              metadata_dict "" in
  let page_content := py_str (description metadata) ++ " Tags: [" ++ tag_string ++ "]" in
  mkDocument page_content metadata_dict.

Definition make_documents (metadata_list : list Metadata) : list Document :=
  map make_document metadata_list.

(** [doc.metadata.get(key, default)]. *)
Definition dict_get_default (key : string) (default : PyVal) (d : dict PyVal) : PyVal :=
  match dict_get key d with Some v => v | None => default end.

(** [','.join(x)]: a list of strings is joined, a string is iterated
    character by character, [None] raises [TypeError]. *)
Definition py_join_comma (v : PyVal) : option string :=
  match v with
  | VList xs => Some (str_join "," xs)
  | VStr s => Some (str_join "," (map (fun c => String c EmptyString) (list_ascii_of_string s)))
  | VNone => None
  end.

(** The update path's rebuild of [doc.page_content] (update_metadata,
    lines 513-522); [None] when a [join] raises. *)
Definition update_page_content (md : dict PyVal) : option string :=
  match py_join_comma (dict_get_default "materials" (VList []) md),
        py_join_comma (dict_get_default "process" (VList []) md) with
  | Some mats, Some procs =>
      let tags := [
        "filename:" ++ py_str (dict_get_default "filename" (VStr "") md);
        "brand:" ++ py_str (dict_get_default "brand" (VStr "") md);
        "materials:" ++ mats;
        "process:" ++ procs;
        "mechanism:" ++ py_str (dict_get_default "mechanism" (VStr "") md);
        "project:" ++ py_str (dict_get_default "project" (VStr "") md);
        "person:" ++ py_str (dict_get_default "person" (VStr "") md)] in
      Some (py_str (dict_get_default "description" (VStr "") md) ++ " Tags: ["
            ++ str_join ", " tags ++ "]")
  | _, _ => None
  end.

(* ------------------------------------------------------------------ *)
(** ** The write handlers: effects and errors *)

(** Externally visible operations, in the order a handler performs them. *)
Inductive Effect :=
| IndexSchemaSetup        (** [VectorStoreManager()]: [init_vectorstore_table],
                              then [_init_fulltext_search]: ALTER TABLE, trigger
                              (re)creation, backfill UPDATE of [search_vector],
                              GIN index, COMMIT *)
| S3ClientInit            (** [S3_StoreManager()]: boto3 client creation *)
| IndexLookup (s3_uri : string)     (** SELECT ... WHERE s3_uri = %s *)
| S3Download (key : string)
| ExifToolRun (path : string)
| S3Upload (key : string)
| TempUnlink
| IndexDeleteById (langchain_id : string)
| IndexDeleteByUri (s3_uri : string)
| IndexAdd (doc : Document)
| S3Delete (key : string).

(** [HTTPException(status_code=...)] raised out of a handler. *)
Definition HttpError := nat.

Inductive result (A : Type) :=
| Ok (a : A)
| Raise (status : HttpError).
Arguments Ok {A} a.
Arguments Raise {A} status.

(** A writer/error monad: the effects performed so far, then a value or
    an exception. *)
Definition M (A : Type) := list Effect -> list Effect * result A.

Definition ret {A} (a : A) : M A := fun tr => (tr, Ok a).
Definition raise {A} (status : HttpError) : M A := fun tr => (tr, Raise status).
Definition bind {A B} (m : M A) (f : A -> M B) : M B :=
  fun tr => match m tr with
            | (tr', Ok a) => f a tr'
            | (tr', Raise e) => (tr', Raise e)
            end.
Definition emit (e : Effect) : M unit := fun tr => ((tr ++ [e])%list, Ok tt).

Notation "x <- m ;; k" := (bind m (fun x => k)) (at level 61, m at next level, right associativity).
Notation "m ;;; k" := (bind m (fun _ => k)) (at level 61, right associativity).

Definition run {A} (m : M A) : list Effect * result A := m [].

(** [str.replace(old, new)] (all non-overlapping occurrences, left to
    right), by recursion on a fuel bounded by the subject's length. *)
Fixpoint replace_fuel (fuel : nat) (old new s : string) : string :=
  match fuel with
  | O => s
  | S fuel' =>
      match s with
      | EmptyString => EmptyString
      | String c s' =>
          if String.eqb old "" then s
          else if String.prefix old s then
            new ++ replace_fuel fuel' old new
                      (substring (String.length old) (String.length s) s)
          else String c (replace_fuel fuel' old new s')
      end
  end.

Definition py_replace (s old new : string) : string :=
  replace_fuel (String.length s) old new s.

(** Outcome of one [subprocess.run(['exiftool', ...])]: a completed
    process with its return code, or an exception raised by the call
    (e.g. an [OSError] when the process cannot be started). *)
Inductive ExifOutcome :=
| Completed (returncode : Z)
| RunRaised.

(** Outcome of [get_document_by_s3_uri]'s SELECT. *)
Inductive LookupOutcome :=
| Row (langchain_id : string) (langchain_metadata : dict PyVal)
| NoRow
| QueryRaised.

(** The external services seen by [update_metadata]. *)
Record UpdateEnv := mkUpdateEnv {
  aws_bucket_name : string;                  (** [config.aws_bucket_name] *)
  select_by_s3_uri : string -> LookupOutcome;
  download_ok : bool;
  exiftool_run : ExifOutcome;
  upload_ok : bool;
  vs_init_ok : bool;         (** [PGVectorStore.create_sync] in [VectorStoreManager()] *)
  exiftool_helper_ok : bool; (** [exiftool.ExifToolHelper()] in [ImageProcessor()] *)
  index_delete_ok : bool;    (** [vector_store.delete] / the psycopg DELETE *)
  index_add_ok : bool        (** [vector_manager.add_documents] (embedding + insert) *)
}.

(** [UpdateMetadataRequest] (api/schemas.py); [None] = field not set. *)
Record UpdateMetadataRequest := mkUpdateMetadataRequest {
  req_s3_uri : string;
  req_description : option string;
  req_brand : option string;
  req_materials : option (list string);
  req_process : option (list string);
  req_mechanism : option string;
  req_project : option string;
  req_person : option string
}.

(** [get_document_by_s3_uri]: 404 when no row matches, 500 when the
    query raises or the row has no ['description'] key (the [KeyError]
    of [langchain_metadata['description']]). *)
Definition get_document_by_s3_uri (env : UpdateEnv) (s3_uri : string)
    : M (string * dict PyVal) :=
  emit (IndexLookup s3_uri) ;;;
  match select_by_s3_uri env s3_uri with
  | Row langchain_id langchain_metadata =>
      match dict_get "description" langchain_metadata with
      | Some _ => ret (langchain_id, langchain_metadata)
      | None => raise 500%nat
      end
  | NoRow => raise 404%nat
  | QueryRaised => raise 500%nat
  end.

(** [ImageProcessor.metadata_to_imgs]: the loop sits in a [try] whose
    handler returns [[]]. A non-zero return code is only logged. *)
Definition metadata_to_imgs_one (run_outcome : ExifOutcome) (metadata : Metadata)
    : M (option string) :=
  match materials metadata, process metadata with
  | VNone, _ | _, None | _, Some VNone => ret None   (* TypeError / AttributeError *)
  | _, _ =>
      emit (ExifToolRun (filename metadata)) ;;;
      match run_outcome with
      | RunRaised => ret None
      | Completed returncode =>
          (* if result.returncode != 0: logger.error(...) *)
          ret (Some (filename metadata))
      end
  end.

(** The [for] loop; [None] when an iteration raised. [run_outcome i]
    is the outcome of the [i]-th ExifTool run, [i] being the number of
    files processed so far. *)
Fixpoint metadata_to_imgs_loop (run_outcome : nat -> ExifOutcome)
    (processed_files : list string) (metadata_list : list Metadata)
    : M (option (list string)) :=
  match metadata_list with
  | [] => ret (Some processed_files)
  | metadata :: ms =>
      r <- metadata_to_imgs_one (run_outcome (List.length processed_files)) metadata ;;
      match r with
      | None => ret None
      | Some processed_file =>
          metadata_to_imgs_loop run_outcome (processed_files ++ [processed_file])%list ms
      end
  end.

Definition metadata_to_imgs (run_outcome : nat -> ExifOutcome) (metadata_list : list Metadata)
    : M (list string) :=
  r <- metadata_to_imgs_loop run_outcome [] metadata_list ;;
  match r with
  | Some processed_files => ret processed_files
  | None => ret []                          (* except Exception: return [] *)
  end.

Definition opt_str (o : option string) (fallback : PyVal) : PyVal :=
  match o with Some s => VStr s | None => fallback end.

Definition opt_list (o : option (list string)) (fallback : PyVal) : PyVal :=
  match o with Some xs => VList xs | None => fallback end.

(** [if request.f is not None: doc.metadata[f] = ...; updated_fields[f] = ...]. *)
Definition apply_field (key : string) (v : option PyVal)
    (st : dict PyVal * dict PyVal) : dict PyVal * dict PyVal :=
  match v with
  | Some x => (dict_set key x (fst st), dict_set key x (snd st))
  | None => st
  end.

Definition apply_request (request : UpdateMetadataRequest) (md : dict PyVal)
    : dict PyVal * dict PyVal :=
  let st := (md, []) in
  let st := apply_field "description" (option_map VStr (req_description request)) st in
  let st := apply_field "brand" (option_map VStr (req_brand request)) st in
  let st := apply_field "materials" (option_map VList (req_materials request)) st in
  let st := apply_field "process" (option_map VList (req_process request)) st in
  let st := apply_field "mechanism" (option_map VStr (req_mechanism request)) st in
  let st := apply_field "project" (option_map VStr (req_project request)) st in
  apply_field "person" (option_map VStr (req_person request)) st.

(** Path of the scratch copy ([tempfile.NamedTemporaryFile]). *)
Definition temp_path : string := "/tmp/tmp_scratch".

(** [update_metadata] (routers/image.py). Every exception is turned
    into a 500 by the handler's [except Exception]. *)
Definition update_metadata (env : UpdateEnv) (request : UpdateMetadataRequest)
    : M (dict PyVal) :=
  emit IndexSchemaSetup ;;;           (* VectorStoreManager(): _init_table, _init_fulltext_search *)
  (if vs_init_ok env then ret tt else raise 500%nat) ;;;        (* create_sync *)
  (if String.eqb (aws_bucket_name env) "" then raise 500%nat    (* S3_StoreManager(): *)
   else ret tt) ;;;                                  (* if not self.aws_bucket_name: raise *)
  emit S3ClientInit ;;;
  found <- get_document_by_s3_uri env (req_s3_uri request) ;;
  let '(langchain_id, md) := found in
  let s3_key := py_replace (req_s3_uri request)
                  ("s3://" ++ aws_bucket_name env ++ "/") "" in
  emit (S3Download s3_key) ;;;
  (if download_ok env then ret tt else raise 500%nat) ;;;
  let metadata_obj :=
    mkMetadata temp_path
      (opt_str (req_description request) (dict_get_default "description" (VStr "") md))
      (opt_str (req_brand request) (dict_get_default "brand" (VStr "") md))
      (opt_list (req_materials request) (dict_get_default "materials" (VList []) md))
      (opt_str (req_mechanism request) (dict_get_default "mechanism" (VStr "") md))
      (opt_str (req_project request) (dict_get_default "project" (VStr "") md))
      (opt_str (req_person request) (dict_get_default "person" (VStr "") md))
      VNone VNone
      (Some (opt_list (req_process request) (dict_get_default "process" (VList []) md)))
      None in
  (if exiftool_helper_ok env then ret tt else raise 500%nat) ;;;  (* ImageProcessor(...) *)
  updated_files <- metadata_to_imgs (fun _ => exiftool_run env) [metadata_obj] ;;
  match updated_files with
  | [] => emit TempUnlink ;;; raise 500%nat
  | _ :: _ =>
      emit (S3Upload s3_key) ;;;
      (if upload_ok env then ret tt else raise 500%nat) ;;;
      emit TempUnlink ;;;
      let '(md', updated_fields) := apply_request request md in
      match update_page_content md' with
      | None => raise 500%nat
      | Some page_content =>
          (if index_delete_ok env then
             if String.eqb langchain_id ""
             then emit (IndexDeleteByUri (req_s3_uri request))
             else emit (IndexDeleteById langchain_id)
           else raise 500%nat) ;;;
          (if index_add_ok env then emit (IndexAdd (mkDocument page_content md'))
           else raise 500%nat) ;;;
          ret updated_fields
      end
  end.

(** Outcome of the object-store half of [delete_image]. *)
Inductive S3DeleteOutcome :=
| S3InitRaised            (** [S3_StoreManager()] raised (bucket unset) *)
| DeleteObjectRaised      (** [delete_object] raised *)
| DeleteObjectOk.

(** Outcome of the index half: the DELETE raised, or its [rowcount]. *)
Inductive IndexDeleteOutcome :=
| DeleteRaised
| DeleteRowcount (deleted_count : nat).

Record DeleteEnv := mkDeleteEnv {
  del_bucket_name : string;
  s3_delete : S3DeleteOutcome;
  index_delete : IndexDeleteOutcome
}.

Record DeleteImageRequest := mkDeleteImageRequest {
  del_s3_uri : string;
  del_filename : string
}.

Record DeleteImageResponse := mkDeleteImageResponse {
  deleted_from_s3 : bool;
  deleted_from_vector_db : bool
}.

(** [delete_image] (routers/image.py): two independent [try] blocks,
    then a 500 only when neither deletion succeeded. *)
Definition delete_image (env : DeleteEnv) (request : DeleteImageRequest)
    : M DeleteImageResponse :=
  deleted_from_s3 <-
    match s3_delete env with
    | S3InitRaised => ret false
    | o =>
        let s3_key := py_replace (del_s3_uri request)
                        ("s3://" ++ del_bucket_name env ++ "/") "" in
        emit (S3Delete s3_key) ;;;
        ret (match o with DeleteObjectOk => true | _ => false end)
    end ;;
  emit (IndexDeleteByUri (del_s3_uri request)) ;;;
  let deleted_from_vector_db :=
    match index_delete env with
    | DeleteRowcount n => Nat.ltb 0 n
    | DeleteRaised => false
    end in
  if negb deleted_from_s3 && negb deleted_from_vector_db then raise 500%nat
  else ret (mkDeleteImageResponse deleted_from_s3 deleted_from_vector_db).


Definition is_index_record_write (e : Effect) : bool :=
  match e with
  | IndexDeleteById _ | IndexDeleteByUri _ | IndexAdd _ => true
  | _ => false
  end.


(** Concrete inputs used below. *)
Definition sample_metadata : Metadata :=
  mkMetadata "/tmp/mechlib_uploads/switch.png" (VStr "Clip") (VStr "Acme")
    (VList ["Metal"]) (VStr "snap") (VStr "P") (VStr "bob") VNone VNone
    (Some (VList ["Molding"])) None.

(** A stored record whose re-tagging ExifTool rejects with exit code 1. *)
Definition exif_fail_env : UpdateEnv :=
  mkUpdateEnv "mechlib-images"
    (fun _ => Row "id1" [("filename", VStr "switch.png");
                         ("description", VStr "Clip");
                         ("materials", VList ["Metal"])])
    true (Completed 1%Z) true true true true true.

Definition sample_update_request : UpdateMetadataRequest :=
  mkUpdateMetadataRequest "s3://mechlib-images/switch.png" (Some "New")
    None None None None None None.


(** The same store with [AWS_S3_BUCKET] unset. *)
Definition unset_bucket_env : UpdateEnv :=
  mkUpdateEnv "" (fun _ => NoRow) true (Completed 0%Z) true true true true true.

(* ------------------------------------------------------------------ *)
(** ** Object-store keys (S3_StoreManager.add_files) *)

(** [Path(p).name] for a path without a trailing separator: the text
    after the last ['/']. *)
Fixpoint path_name_from (cur s : string) : string :=
  match s with
  | EmptyString => cur
  | String c s' =>
      if Ascii.eqb c "/"%char then path_name_from "" s'
      else path_name_from (cur ++ String c EmptyString) s'
  end.

Definition path_name (p : string) : string := path_name_from "" p.

(** [f"{directory}/{file.name}" if directory else file.name]. *)
Definition s3_key_for (directory : option string) (name : string) : string :=
  match directory with
  | Some d => if String.eqb d "" then name else d ++ "/" ++ name
  | None => name
  end.

(** Outcome of [self.s3_client.upload_file(file, ...)]. *)
Inductive UploadOutcome :=
| UploadOk
| UploadClientError       (** [botocore.exceptions.ClientError] *)
| UploadRaised.           (** any other exception *)

(** [S3_StoreManager.add_files], starting from the manager's current
    [img_data]. One [try] wraps the whole loop: a [ClientError] is
    logged and ends the loop; any other exception propagates, and its
    only caller ([process_images]) turns it into a 500. *)
Fixpoint add_files (bucket : string) (upload : string -> UploadOutcome)
    (directory : option string) (processed_files : list string)
    (img_data : dict string) : M (dict string) :=
  match processed_files with
  | [] => ret img_data
  | file :: fs =>
      let s3_key := s3_key_for directory (path_name file) in
      emit (S3Upload s3_key) ;;;
      match upload file with
      | UploadOk =>
          let s3_uri := "s3://" ++ bucket ++ "/" ++ s3_key in
          add_files bucket upload directory fs (dict_set (path_name file) s3_uri img_data)
      | UploadClientError => ret img_data
      | UploadRaised => raise 500%nat
      end
  end.

(** Occurrence test used to state when [str.replace] leaves a string
    alone: [pat] occurs in [s] at some position. *)
Fixpoint occurs_in (pat s : string) : bool :=
  String.prefix pat s ||
  match s with
  | EmptyString => false
  | String _ s' => occurs_in pat s'
  end.

(* ------------------------------------------------------------------ *)
(** ** Stored index rows: the SQL of get_document_by_s3_uri and delete_image *)

Definition dquote : string := String (ascii_of_nat 34) EmptyString.

(** [langchain_metadata->>'s3_uri'] for the values the handlers store:
    SQL NULL for JSON null, the string for a JSON string, the jsonb text
    of an array (exact for items with no character jsonb escapes). *)
Definition json_text (v : PyVal) : option string :=
  match v with
  | VNone => None
  | VStr s => Some s
  | VList xs => Some ("[" ++ str_join ", " (map (fun s => dquote ++ s ++ dquote) xs) ++ "]")
  end.

(** [WHERE langchain_metadata->>'s3_uri' = %s]: NULL (absent key or JSON
    null) never compares equal. *)
Definition s3_uri_matches (s3_uri : string) (md : dict PyVal) : bool :=
  match dict_get "s3_uri" md with
  | Some v => match json_text v with
              | Some t => String.eqb t s3_uri
              | None => false
              end
  | None => false
  end.

(** [SELECT langchain_id, langchain_metadata ... LIMIT 1] over the rows
    of [mechlib_images] (which matching row LIMIT 1 picks is left to the
    database; the model takes the first in list order). *)
Definition select_by_s3_uri_rows (rows : list (string * dict PyVal)) (s3_uri : string)
    : LookupOutcome :=
  match find (fun row => s3_uri_matches s3_uri (snd row)) rows with
  | Some (langchain_id, md) => Row langchain_id md
  | None => NoRow
  end.

(** [cur.rowcount] of [DELETE ... WHERE langchain_metadata->>'s3_uri' = %s]. *)
Definition delete_by_s3_uri_rowcount (rows : list (string * dict PyVal)) (s3_uri : string)
    : nat :=
  List.length (filter (fun row => s3_uri_matches s3_uri (snd row)) rows).

(* ------------------------------------------------------------------ *)
(** ** search_images: presigned URLs and [ImageResult] validation *)

(** [S3_StoreManager.generate_presigned_url(doc.metadata.get('s3_uri'))]:
    [None] raises [ValueError]; otherwise [str(s3_uri)] goes to the
    client, whose failure is [None] from [presign]. *)
Definition generate_presigned_url (presign : string -> option string)
    (s3_uri : option PyVal) : option string :=
  match s3_uri with
  | None | Some VNone => None
  | Some v => presign (py_str v)
  end.

(** Pydantic's check of one [ImageResult] field built with
    [doc.metadata.get(key)] ([Optional[str]] / [Optional[list[str]]]),
    or [doc.metadata.get(key, <str default>)] ([str]). *)
Definition opt_str_field (v : option PyVal) : bool :=
  match v with
  | None | Some VNone | Some (VStr _) => true
  | Some (VList _) => false
  end.

Definition opt_list_field (v : option PyVal) : bool :=
  match v with
  | None | Some VNone | Some (VList _) => true
  | Some (VStr _) => false
  end.

Definition str_field (v : option PyVal) : bool :=
  match v with
  | None | Some (VStr _) => true
  | _ => false
  end.

Definition image_result_valid (md : dict PyVal) : bool :=
  str_field (dict_get "s3_uri" md) && str_field (dict_get "filename" md) &&
  opt_str_field (dict_get "description" md) && opt_str_field (dict_get "brand" md) &&
  opt_list_field (dict_get "materials" md) && opt_list_field (dict_get "process" md) &&
  opt_str_field (dict_get "mechanism" md) && opt_str_field (dict_get "project" md) &&
  opt_str_field (dict_get "person" md) && opt_str_field (dict_get "timestamp" md).

(** The whole [search_images] handler: after filtering it creates
    [S3_StoreManager()] ([ValueError] when the bucket is unset) and builds
    one [ImageResult] per kept pair; every exception becomes a 500. *)
Definition search_images_handler
    (sem : string -> nat -> list (Document * Q))
    (kw : string -> nat -> list (option string))
    (s3_init_ok : bool) (presign : string -> option string)
    (request : SearchRequest) : result SearchResponse :=
  let resp := search_images sem kw request in
  if negb s3_init_ok then Raise 500%nat
  else if forallb (fun '(doc, _) =>
                     match generate_presigned_url presign (dict_get "s3_uri" (metadata doc)) with
                     | Some _ => image_result_valid (metadata doc)
                     | None => false
                     end) (results resp)
  then Ok resp
  else Raise 500%nat.

(* ------------------------------------------------------------------ *)
(** ** process_images (routers/image.py) *)

(** [ProcessRequest] (api/schemas.py). *)
Record ProcessRequest := mkProcessRequest {
  paths : list string;
  p_description : string;
  p_brand : string;
  p_materials : list string;
  p_process : list string;
  p_mechanism : string;
  p_project : string;
  p_person : string;
  p_directory : option string
}.

Record ProcessEnv := mkProcessEnv {
  path_exists : string -> bool;          (** [Path(p).exists()] *)
  absolute : string -> string;           (** [str(Path(p).absolute())] *)
  proc_bucket : option string;           (** [AWS_BUCKET_NAME]; [None] = unset *)
  proc_exiftool_helper_ok : bool;        (** [exiftool.ExifToolHelper()] *)
  proc_exiftool_run : nat -> ExifOutcome;
  proc_upload : string -> UploadOutcome;
  proc_vs_init_ok : bool;                (** [VectorStoreManager()] *)
  proc_index_add_ok : bool               (** [vector_store.add_documents] *)
}.

(** [S3_StoreManager()]: [if not self.aws_bucket_name: raise ValueError];
    an unset or empty bucket name is falsy. *)
Definition s3_bucket (o : option string) : option string :=
  match o with
  | Some b => if String.eqb b "" then None else Some b
  | None => None
  end.

Fixpoint emit_all (es : list Effect) : M unit :=
  match es with
  | [] => ret tt
  | e :: es' => emit e ;;; emit_all es'
  end.

(** The validation loop: 404 at the first path that does not exist. *)
Fixpoint check_paths_exist (env : ProcessEnv) (ps : list string) : M unit :=
  match ps with
  | [] => ret tt
  | p :: ps' => if path_exists env p then check_paths_exist env ps' else raise 404%nat
  end.

(** The [Metadata] built for one path, after [request.person] has been
    overwritten. *)
Definition process_metadata (request : ProcessRequest) (person : string)
    (full_path : string) : Metadata :=
  mkMetadata full_path (VStr (p_description request)) (VStr (p_brand request))
    (VList (p_materials request)) (VStr (p_mechanism request))
    (VStr (p_project request)) (VStr person) VNone VNone
    (Some (VList (p_process request))) None.

(** [filename_with_s3uri_obj]: full path -> s3 URI for every processed
    file whose name is a key of [img_data]. *)
Definition full_path_uris (env : ProcessEnv) (img_data : dict string)
    (processed_files : list string) : dict string :=
  fold_left (fun acc processed_file =>
               match dict_get (path_name processed_file) img_data with
               | Some u => dict_set (absolute env processed_file) u acc
               | None => acc
               end) processed_files [].

(** [process_images]: returns [(files_processed, s3_uris)]. *)
Definition process_images (env : ProcessEnv) (request : ProcessRequest)
    (user_email : string) : M (nat * dict string) :=
  check_paths_exist env (paths request) ;;;
  let person := user_email in                    (* request.person = user['email'] *)
  let metadata_list :=
    map (fun p => process_metadata request person (absolute env p)) (paths request) in
  (if proc_exiftool_helper_ok env then ret tt else raise 500%nat) ;;;  (* ImageProcessor *)
  processed_files <- metadata_to_imgs (proc_exiftool_run env) metadata_list ;;
  match processed_files with
  | [] => raise 500%nat
  | _ :: _ =>
      match s3_bucket (proc_bucket env) with
      | None => raise 500%nat                    (* S3_StoreManager(): ValueError *)
      | Some bucket =>
          emit S3ClientInit ;;;
          img_data <- add_files bucket (proc_upload env) (p_directory request)
                        processed_files [] ;;
          match img_data with
          | [] => raise 500%nat
          | _ :: _ =>
              let documents :=
                make_documents
                  (s3_uris_to_metadata (full_path_uris env img_data processed_files)
                     metadata_list) in
              emit IndexSchemaSetup ;;;          (* VectorStoreManager() *)
              (if proc_vs_init_ok env then ret tt else raise 500%nat) ;;;
              (if proc_index_add_ok env then emit_all (map IndexAdd documents)
               else raise 500%nat) ;;;
              emit_all (map (fun _ => TempUnlink) processed_files) ;;;
              ret (List.length processed_files, img_data)
          end
      end
  end.

(* ------------------------------------------------------------------ *)
(** ** ImageFetcher.remove_path (img_fetcher.py) *)

(** The loop stops at the first entry whose filename differs from
    [path] and [list.remove] drops that entry (the first one equal to
    it, which is the same one). *)
Fixpoint remove_path (path : string) (metadata_list : list Metadata) : list Metadata :=
  match metadata_list with
  | [] => []
  | metadata :: ms =>
      if negb (String.eqb (filename metadata) path) then ms
      else metadata :: remove_path path ms
  end.

(* ------------------------------------------------------------------ *)
(** ** Helpers for stating properties *)

(** The value [update_metadata] writes under [key], if the request sets
    that field. *)
Definition requested_value (request : UpdateMetadataRequest) (key : string) : option PyVal :=
  if String.eqb key "description" then option_map VStr (req_description request)
  else if String.eqb key "brand" then option_map VStr (req_brand request)
  else if String.eqb key "materials" then option_map VList (req_materials request)
  else if String.eqb key "process" then option_map VList (req_process request)
  else if String.eqb key "mechanism" then option_map VStr (req_mechanism request)
  else if String.eqb key "project" then option_map VStr (req_project request)
  else if String.eqb key "person" then option_map VStr (req_person request)
  else None.

(** The last semantic candidate carrying filename [f]. *)
Fixpoint last_candidate (f : string) (res : list (Document * Q)) : option (Document * Q) :=
  match res with
  | [] => None
  | (doc, d) :: res' =>
      match last_candidate f res' with
      | Some c => Some c
      | None => match doc_filename doc with
                | Some g => if String.eqb g f then Some (doc, d) else None
                | None => None
                end
      end
  end.

(** The arguments [metadata_to_imgs] needs from one [Metadata]:
    iterable [materials] and a set, non-[None] [process]. *)
Definition exif_args_ok (m : Metadata) : bool :=
  match materials m, process m with
  | VNone, _ | _, None | _, Some VNone => false
  | _, _ => true
  end.

Definition completed (o : ExifOutcome) : bool :=
  match o with Completed _ => true | RunRaised => false end.

(** Every item from the [i]-th on has its arguments and its ExifTool run
    completes. *)
Fixpoint exif_all_ok (out : nat -> ExifOutcome) (i : nat) (ms : list Metadata) : bool :=
  match ms with
  | [] => true
  | m :: ms' => exif_args_ok m && completed (out i) && exif_all_ok out (S i) ms'
  end.

(** Index metadata written by some [process_images] run. *)
Definition created_by_process_images (md : dict PyVal) : Prop :=
  exists env request email d,
    In (IndexAdd d) (fst (run (process_images env request email))) /\ md = metadata d.

(** The documents a trace adds to the index. *)
Definition added_docs (tr : list Effect) : list Document :=
  flat_map (fun e => match e with IndexAdd d => [d] | _ => [] end) tr.

(** Concrete inputs for the create, upload and update handlers. *)
Definition sample_process_request : ProcessRequest :=
  mkProcessRequest ["/tmp/mechlib_uploads/switch.png"; "/tmp/mechlib_uploads/hinge.png"]
    "Clip" "Acme" ["Metal"] ["Molding"] "snap" "P" "mallory" (Some "parts").

Definition sample_process_env : ProcessEnv :=
  mkProcessEnv (fun _ => true) (fun p => p) (Some "mechlib-images") true
    (fun _ => Completed 0%Z) (fun _ => UploadOk) true true.

Definition missing_file_env : ProcessEnv :=
  mkProcessEnv (fun p => negb (String.eqb p "/tmp/mechlib_uploads/hinge.png"))
    (fun p => p) (Some "mechlib-images") true (fun _ => Completed 0%Z) (fun _ => UploadOk)
    true true.

Definition hinge_client_error (file : string) : UploadOutcome :=
  if String.eqb file "/tmp/mechlib_uploads/hinge.png" then UploadClientError else UploadOk.

(** The re-indexing fails: [add_documents] raises. *)
Definition add_fails_env : UpdateEnv :=
  mkUpdateEnv "mechlib-images"
    (fun _ => Row "id1" [("filename", VStr "switch.png");
                         ("description", VStr "Clip");
                         ("materials", VList ["Metal"])])
    true (Completed 0%Z) true true true true false.

(** A stored row without a ['description'] key. *)
Definition no_description_env : UpdateEnv :=
  mkUpdateEnv "mechlib-images"
    (fun _ => Row "id1" [("filename", VStr "switch.png")])
    true (Completed 0%Z) true true true true true.

(** Uploads succeed but [vector_store.add_documents] raises. *)
Definition index_fail_process_env : ProcessEnv :=
  mkProcessEnv (fun _ => true) (fun p => p) (Some "mechlib-images") true
    (fun _ => Completed 0%Z) (fun _ => UploadOk) true false.

(** Index rows left by two [process_images] runs of different users. *)
Definition sample_created_rows : list (string * dict PyVal) :=
  (combine ["id1"; "id2"] (map metadata (added_docs (fst (run
     (process_images sample_process_env sample_process_request "bob@example.com"))))) ++
   combine ["id3"; "id4"] (map metadata (added_docs (fst (run
     (process_images sample_process_env sample_process_request "alice@example.com"))))))%list.

(* ================================================================== *)
(** * Lemmas *)

Lemma dict_get_set {V} (k k' : string) (v : V) (d : dict V) :
  dict_get k (dict_set k' v d) =
  if String.eqb k k' then Some v else dict_get k d.
Proof.
  induction d as [|[k0 v0] d IH]; simpl.
  - reflexivity.
  - destruct (String.eqb k' k0) eqn:E1.
    + apply String.eqb_eq in E1; subst k0. simpl.
      destruct (String.eqb k k'); reflexivity.
    + simpl. destruct (String.eqb k k0) eqn:E2.
      * apply String.eqb_eq in E2; subst k0.
        destruct (String.eqb k k') eqn:E3; [|reflexivity].
        apply String.eqb_eq in E3; subst k'.
        rewrite String.eqb_refl in E1; discriminate.
      * exact IH.
Qed.

(** Entry-wise invariants of dicts are preserved by [dict_set]. *)
Lemma dict_set_Forall {V} (P : string -> V -> Prop) k v (d : dict V) :
  Forall (fun '(k', v') => P k' v') d -> P k v ->
  Forall (fun '(k', v') => P k' v') (dict_set k v d).
Proof.
  induction d as [|[k0 v0] d IH]; simpl; intros Hd Hp.
  - constructor; auto.
  - inversion Hd; subst.
    destruct (String.eqb k k0) eqn:E.
    + apply String.eqb_eq in E; subst k0. constructor; auto.
    + constructor; auto.
Qed.

Lemma dict_set_keys {V} k v (d : dict V) :
  map fst (dict_set k v d) =
  if dict_mem k d then map fst d else (map fst d ++ [k])%list.
Proof.
  unfold dict_mem.
  induction d as [|[k0 v0] d IH]; simpl.
  - reflexivity.
  - destruct (String.eqb k k0) eqn:E; simpl.
    + apply String.eqb_eq in E; subst k0. reflexivity.
    + rewrite IH. destruct (dict_get k d); reflexivity.
Qed.

Lemma dict_get_None_notin {V} k (d : dict V) :
  dict_get k d = None -> ~ In k (map fst d).
Proof.
  induction d as [|[k0 v0] d IH]; simpl; intros H.
  - auto.
  - destruct (String.eqb k k0) eqn:E; [discriminate|].
    apply String.eqb_neq in E. intros [<-|Hin]; [congruence|].
    exact (IH H Hin).
Qed.

Lemma dict_get_Some_in {V} k v (d : dict V) :
  dict_get k d = Some v -> In (k, v) d.
Proof.
  induction d as [|[k0 v0] d IH]; simpl; intros H.
  - discriminate.
  - destruct (String.eqb k k0) eqn:E.
    + apply String.eqb_eq in E; subst. injection H as <-. auto.
    + right; auto.
Qed.

Lemma dict_set_NoDup {V} k v (d : dict V) :
  NoDup (map fst d) -> NoDup (map fst (dict_set k v d)).
Proof.
  intros H. rewrite dict_set_keys. unfold dict_mem.
  destruct (dict_get k d) eqn:E; [exact H|].
  apply dict_get_None_notin in E.
  apply NoDup_app; auto using NoDup_cons, NoDup_nil.
  intros x Hx [<-|[]]. contradiction.
Qed.

Lemma In_dict_values {V} v (d : dict V) :
  In v (dict_values d) -> exists k, In (k, v) d.
Proof.
  unfold dict_values. intros H. apply in_map_iff in H.
  destruct H as [[k v'] [Hv Hin]]. simpl in Hv; subst. eauto.
Qed.

(** Stable insertion sort: sortedness and membership. *)
Section SortLemmas.
Context {A : Type} (key : A -> Q).
Let R (a b : A) : Prop := key a <= key b.

Lemma sort_insert_In x y l :
  In y (sort_insert key x l) <-> x = y \/ In y l.
Proof.
  induction l as [|z l IH]; simpl.
  - tauto.
  - destruct (Qle_bool (key z) (key x)); simpl; [rewrite IH|]; tauto.
Qed.

Lemma py_sorted_In_aux y l acc :
  In y (fold_left (fun acc x => sort_insert key x acc) l acc) <->
  In y l \/ In y acc.
Proof.
  revert acc; induction l as [|x l IH]; intros acc; simpl.
  - tauto.
  - rewrite IH, sort_insert_In. tauto.
Qed.

Lemma py_sorted_In y l : In y (py_sorted key l) <-> In y l.
Proof.
  unfold py_sorted. rewrite py_sorted_In_aux. simpl. tauto.
Qed.

Lemma sort_insert_sorted x l :
  LocallySorted R l -> LocallySorted R (sort_insert key x l).
Proof.
  intros H; induction H as [|y|y z l Hs IH Hyz]; simpl.
  - constructor.
  - destruct (Qle_bool (key y) (key x)) eqn:E.
    + constructor; [constructor|]. apply Qle_bool_imp_le, E.
    + constructor; [constructor|]. unfold R.
      apply Qlt_le_weak, Qnot_le_lt. intros Hle.
      apply Qle_bool_iff in Hle. congruence.
  - destruct (Qle_bool (key y) (key x)) eqn:E.
    + simpl in IH. destruct (Qle_bool (key z) (key x)) eqn:E2.
      * constructor; [exact IH|exact Hyz].
      * constructor; [exact IH|]. apply Qle_bool_imp_le, E.
    + constructor; [constructor; assumption|]. unfold R.
      apply Qlt_le_weak, Qnot_le_lt. intros Hle.
      apply Qle_bool_iff in Hle. congruence.
Qed.

Lemma py_sorted_sorted l : LocallySorted R (py_sorted key l).
Proof.
  unfold py_sorted.
  assert (Hacc : LocallySorted R []) by constructor.
  revert Hacc. generalize (@nil A) as acc.
  induction l as [|x l IH]; intros acc Hacc; simpl.
  - exact Hacc.
  - apply IH, sort_insert_sorted, Hacc.
Qed.

Lemma LocallySorted_firstn n l :
  LocallySorted R l -> LocallySorted R (firstn n l).
Proof.
  intros H; revert n; induction H as [|y|y z l Hs IH Hyz]; intros n.
  - destruct n; constructor.
  - destruct n as [|[|n]]; constructor.
  - destruct n as [|n]; simpl; [constructor|].
    specialize (IH n). destruct n as [|n]; simpl; [constructor|].
    simpl in IH. constructor; assumption.
Qed.

Lemma LocallySorted_nth_error l i a b :
  LocallySorted R l -> nth_error l i = Some a -> nth_error l (S i) = Some b ->
  key a <= key b.
Proof.
  intros H; revert i; induction H as [|y|y z l Hs IH Hyz]; intros i Ha Hb.
  - destruct i; discriminate.
  - destruct i as [|[|i]]; simpl in Hb; discriminate.
  - destruct i as [|i].
    + simpl in Ha, Hb. injection Ha as <-. injection Hb as <-. exact Hyz.
    + simpl in Ha. exact (IH i Ha Hb).
Qed.
End SortLemmas.

Lemma dict_mem_set {V} f k v (d : dict V) :
  dict_mem f (dict_set k v d) = String.eqb f k || dict_mem f d.
Proof.
  unfold dict_mem. rewrite dict_get_set. destruct (String.eqb f k); reflexivity.
Qed.

Lemma dict_mem_In {V} f (d : dict V) : dict_mem f d = true <-> In f (map fst d).
Proof.
  unfold dict_mem. induction d as [|[k v] d IH]; simpl.
  - split; [discriminate|tauto].
  - destruct (String.eqb f k) eqn:E.
    + apply String.eqb_eq in E; subst. tauto.
    + apply String.eqb_neq in E. rewrite IH. split; [tauto|].
      intros [->|H]; [congruence|exact H].
Qed.

Lemma keyword_rank_spec_py (f : string) (kws : list string) :
  keyword_rank_spec f kws =
  if py_in f kws then Some (py_index f kws + 1)%nat else None.
Proof.
  unfold py_in. induction kws as [|x kws IH]; simpl.
  - reflexivity.
  - destruct (String.eqb f x); simpl; [reflexivity|].
    rewrite IH. destruct (existsb (String.eqb f) kws); reflexivity.
Qed.

(** The boost computed by the code agrees with the formula of the
    specification. *)
Lemma boosted_distance_spec kws f d :
  VectorStore.boosted_distance kws f d == adjusted_spec kws f d.
Proof.
  unfold VectorStore.boosted_distance, adjusted_spec.
  rewrite keyword_rank_spec_py.
  destruct (py_in f kws); [|reflexivity].
  set (z := inject_Z (Z.of_nat (py_index f kws + 1))).
  assert (Hy : d - (3 # 10) * (1 / z) == d - (3 # 10) / z).
  { unfold Qdiv. rewrite Qmult_1_l. reflexivity. }
  unfold py_max. destruct (Qle_bool (d - (3 # 10) * (1 / z)) 0) eqn:E.
  - apply Qle_bool_imp_le in E. rewrite Hy in E.
    symmetry. apply Q.max_l. exact E.
  - assert (Hlt : 0 < d - (3 # 10) * (1 / z)).
    { apply Qnot_le_lt. intros Hle. apply Qle_bool_iff in Hle. congruence. }
    rewrite Hy in Hlt |- *. symmetry. apply Q.max_r. apply Qlt_le_weak, Hlt.
Qed.

(** Filenames of the semantic candidates that enter [semantic_map]. *)
Definition candidate_filenames (res : list (Document * Q)) : list string :=
  flat_map (fun '(doc, _) => match doc_filename doc with
                             | Some f => [f] | None => [] end) res.

(** Invariant of [semantic_map]: every entry comes from a candidate. *)
Definition sm_entry (res : list (Document * Q)) (f : string)
    (v : Document * nat * Q) : Prop :=
  let '(doc, _, d) := v in In (doc, d) res /\ doc_filename doc = Some f.

(** Invariant of [hybrid_scores]: every entry is a boosted candidate. *)
Definition hs_entry (res : list (Document * Q)) (kws : list string)
    (f : string) (v : Document * Q) : Prop :=
  let '(doc, x) := v in
  exists d, In (doc, d) res /\ doc_filename doc = Some f /\
            x = VectorStore.boosted_distance kws f d.

Lemma build_semantic_map_inv res0 res rank acc :
  incl res res0 ->
  Forall (fun '(k, v) => sm_entry res0 k v) acc ->
  Forall (fun '(k, v) => sm_entry res0 k v)
         (VectorStore.build_semantic_map rank res acc).
Proof.
  revert rank acc; induction res as [|[doc d] res IH]; intros rank acc Hincl Hacc;
    simpl; [exact Hacc|].
  apply IH; [intros x Hx; apply Hincl; right; exact Hx|].
  destruct (doc_filename doc) eqn:E; [|exact Hacc].
  apply (dict_set_Forall (sm_entry res0)); [exact Hacc|].
  simpl. split; [apply Hincl; left; reflexivity|exact E].
Qed.

Lemma build_semantic_map_NoDup res rank acc :
  NoDup (map fst acc) ->
  NoDup (map fst (VectorStore.build_semantic_map rank res acc)).
Proof.
  revert rank acc; induction res as [|[doc d] res IH]; intros rank acc H;
    simpl; [exact H|].
  apply IH. destruct (doc_filename doc); [apply dict_set_NoDup|]; exact H.
Qed.

Lemma build_semantic_map_absent f res rank acc :
  ~ In f (candidate_filenames res) ->
  dict_get f (VectorStore.build_semantic_map rank res acc) = dict_get f acc.
Proof.
  revert rank acc; induction res as [|[doc d] res IH]; intros rank acc H;
    simpl in *; [reflexivity|].
  destruct (doc_filename doc) as [g|] eqn:E; simpl in H.
  - rewrite IH by tauto. rewrite dict_get_set.
    destruct (String.eqb f g) eqn:Efg; [|reflexivity].
    apply String.eqb_eq in Efg. subst. tauto.
  - apply IH, H.
Qed.

Lemma build_semantic_map_get res rank acc doc d f :
  NoDup (candidate_filenames res) -> In (doc, d) res ->
  doc_filename doc = Some f ->
  exists r, dict_get f (VectorStore.build_semantic_map rank res acc) =
            Some (doc, r, d).
Proof.
  revert rank acc; induction res as [|[doc' d'] res IH];
    intros rank acc Hnd Hin Hf; [destruct Hin|].
  simpl in Hnd |- *. destruct Hin as [Heq|Hin].
  - injection Heq as -> ->. rewrite Hf in Hnd |- *. simpl in Hnd.
    apply NoDup_cons_iff in Hnd as [Hnotin _].
    exists rank. rewrite build_semantic_map_absent by exact Hnotin.
    rewrite dict_get_set, String.eqb_refl. reflexivity.
  - apply IH; [|exact Hin|exact Hf].
    destruct (doc_filename doc'); [apply NoDup_cons_iff in Hnd|]; tauto.
Qed.

Section HybridFolds.
Variable kws : list string.

Let step := fun (acc : dict (Document * Q)) (e : string * (Document * nat * Q)) =>
  let '(filename, (doc, _rank, distance)) := e in
  dict_set filename (doc, VectorStore.boosted_distance kws filename distance) acc.

Lemma process_semantic_unfold sm :
  VectorStore.process_semantic kws sm = fold_left step sm [].
Proof. reflexivity. Qed.

Lemma process_semantic_inv_aux res sm acc :
  Forall (fun '(k, v) => sm_entry res k v) sm ->
  Forall (fun '(k, v) => hs_entry res kws k v) acc ->
  Forall (fun '(k, v) => hs_entry res kws k v) (fold_left step sm acc).
Proof.
  revert acc; induction sm as [|[f [[doc r] d]] sm IH]; intros acc Hsm Hacc;
    simpl; [exact Hacc|].
  inversion Hsm as [|? ? Hhd Htl]; subst.
  apply IH; [exact Htl|].
  apply (dict_set_Forall (hs_entry res kws)); [exact Hacc|].
  destruct Hhd as [Hin Hf]. exists d. auto.
Qed.

Lemma process_semantic_mem_aux sm acc f :
  dict_mem f acc = true \/ In f (map fst sm) ->
  dict_mem f (fold_left step sm acc) = true.
Proof.
  revert acc; induction sm as [|[g [[doc r] d]] sm IH]; intros acc H;
    simpl in *.
  - destruct H as [H|[]]; exact H.
  - apply IH. rewrite dict_mem_set.
    destruct H as [H|[<-|H]]; auto.
    + rewrite H, orb_true_r. auto.
    + rewrite String.eqb_refl. auto.
Qed.

Lemma process_semantic_get_aux sm acc f :
  NoDup (map fst sm) ->
  dict_get f (fold_left step sm acc) =
  match dict_get f sm with
  | Some (doc, _, d) => Some (doc, VectorStore.boosted_distance kws f d)
  | None => dict_get f acc
  end.
Proof.
  revert acc; induction sm as [|[g [[doc r] d]] sm IH]; intros acc Hnd;
    simpl in *; [reflexivity|].
  apply NoDup_cons_iff in Hnd as [Hg Hnd].
  rewrite IH by exact Hnd.
  destruct (String.eqb f g) eqn:E.
  - apply String.eqb_eq in E; subst g.
    destruct (dict_get f sm) eqn:Eg.
    + apply dict_get_Some_in in Eg. apply (in_map fst) in Eg. contradiction.
    + rewrite dict_get_set, String.eqb_refl. reflexivity.
  - destruct (dict_get f sm) as [[[doc' r'] d']|]; [reflexivity|].
    rewrite dict_get_set, E. reflexivity.
Qed.
End HybridFolds.

Lemma process_keyword_id kws sm acc :
  (forall f, dict_mem f sm = true -> dict_mem f acc = true) ->
  VectorStore.process_keyword kws sm acc = acc.
Proof.
  intros H. unfold VectorStore.process_keyword.
  induction kws as [|f kws IH]; simpl; [reflexivity|].
  destruct (dict_mem f sm) eqn:E.
  - rewrite (H f E). exact IH.
  - rewrite andb_false_r. exact IH.
Qed.

(** The second loop of [hybrid_search] never fires: the working map is
    exactly the boosted semantic map. *)
Lemma hybrid_scores_semantic sem kw query k :
  VectorStore.hybrid_scores sem kw query k =
  VectorStore.process_semantic (VectorStore._keyword_search kw query (k * 3)%nat)
    (VectorStore.build_semantic_map 1 (sem query (k * 3)%nat) []).
Proof.
  unfold VectorStore.hybrid_scores. apply process_keyword_id.
  intros f Hf. rewrite process_semantic_unfold.
  apply process_semantic_mem_aux. right. apply dict_mem_In, Hf.
Qed.

Lemma hybrid_scores_inv sem kw query k :
  Forall (fun '(f, v) => hs_entry (sem query (k * 3)%nat)
                           (VectorStore._keyword_search kw query (k * 3)%nat) f v)
         (VectorStore.hybrid_scores sem kw query k).
Proof.
  rewrite hybrid_scores_semantic, process_semantic_unfold.
  apply process_semantic_inv_aux; [|constructor].
  apply build_semantic_map_inv; [intros x Hx; exact Hx|constructor].
Qed.

Lemma In_firstn_In {A} n (l : list A) x : In x (firstn n l) -> In x l.
Proof.
  intros H. rewrite <- (firstn_skipn n l). apply in_or_app. left. exact H.
Qed.

Lemma hybrid_search_from_scores sem kw query k w x :
  In x (VectorStore.hybrid_search sem kw query k w) ->
  exists f, In (f, x) (VectorStore.hybrid_scores sem kw query k).
Proof.
  unfold VectorStore.hybrid_search. intros H.
  apply In_firstn_In, py_sorted_In, In_dict_values in H. exact H.
Qed.

(* ================================================================== *)
(** * Hybrid ranker *)

(** C1: for every semantic candidate (filenames being the record
    identity, so distinct among candidates) the working map holds the
    candidate with distance [max(0, distance - 0.3/r)] when it is at
    1-based keyword rank [r], and its raw distance when it is not in the
    keyword list; every returned pair carries such an adjusted distance;
    and scenario A yields A = 0.25, B = 0.3, C = 0.8, in that order. *)
Theorem hybrid_boost_adjusted sem kw query k (w : Q)
  (Hnd : NoDup (candidate_filenames (sem query (k * 3)%nat))) :
  let kws := VectorStore._keyword_search kw query (k * 3)%nat in
  (forall doc d f, In (doc, d) (sem query (k * 3)%nat) ->
     doc_filename doc = Some f ->
     exists x, dict_get f (VectorStore.hybrid_scores sem kw query k) = Some (doc, x)
               /\ x == adjusted_spec kws f d) /\
  (forall doc x, In (doc, x) (VectorStore.hybrid_search sem kw query k w) ->
     exists f d, In (doc, d) (sem query (k * 3)%nat) /\ doc_filename doc = Some f
                 /\ x == adjusted_spec kws f d) /\
  (exists a b c,
     VectorStore.hybrid_search scenario_semantic scenario_keyword_rows query 3 w =
       [(scenario_doc "A", a); (scenario_doc "B", b); (scenario_doc "C", c)]
     /\ a == (1 # 4) /\ b == (3 # 10) /\ c == (8 # 10)).
Proof.
  intros kws. split; [|split].
  - intros doc d f Hin Hf.
    destruct (build_semantic_map_get _ 1 [] _ _ _ Hnd Hin Hf) as [r Hr].
    exists (VectorStore.boosted_distance kws f d). split.
    + rewrite hybrid_scores_semantic, process_semantic_unfold.
      rewrite process_semantic_get_aux
        by (apply build_semantic_map_NoDup; constructor).
      rewrite Hr. reflexivity.
    + apply boosted_distance_spec.
  - intros doc x Hx.
    destruct (hybrid_search_from_scores _ _ _ _ _ _ Hx) as [f Hf].
    pose proof (hybrid_scores_inv sem kw query k) as Hinv.
    rewrite Forall_forall in Hinv. specialize (Hinv _ Hf).
    destruct Hinv as [d [Hin [Hfn ->]]].
    exists f, d. repeat split; [exact Hin|exact Hfn|apply boosted_distance_spec].
  - eexists _, _, _. split; [reflexivity|].
    repeat split; vm_compute; reflexivity.
Qed.

(** C2: the hybrid result is sorted by adjusted distance ascending
    (adjacent pairs non-decreasing), has at most [k] elements, and is the
    first [k] of the sorted candidate pool. *)
Theorem hybrid_search_sorted sem kw query k w :
  let r := VectorStore.hybrid_search sem kw query k w in
  (forall i a b, nth_error r i = Some a -> nth_error r (S i) = Some b ->
     snd a <= snd b) /\
  (List.length r <= k)%nat /\
  r = firstn k (py_sorted snd (dict_values (VectorStore.hybrid_scores sem kw query k))).
Proof.
  intros r. split; [|split].
  - intros i a b Ha Hb.
    apply (LocallySorted_nth_error snd r i a b); [|exact Ha|exact Hb].
    apply LocallySorted_firstn, py_sorted_sorted.
  - apply firstn_le_length.
  - reflexivity.
Qed.

(** C3: the fused output only re-ranks the semantic candidate pool:
    every returned document is a semantic candidate, so a record found
    only by the keyword search never appears. *)
Theorem hybrid_search_semantic_only sem kw query k w :
  forall doc x, In (doc, x) (VectorStore.hybrid_search sem kw query k w) ->
  exists d, In (doc, d) (sem query (k * 3)%nat).
Proof.
  intros doc x Hx.
  destruct (hybrid_search_from_scores _ _ _ _ _ _ Hx) as [f Hf].
  pose proof (hybrid_scores_inv sem kw query k) as Hinv.
  rewrite Forall_forall in Hinv. destruct (Hinv _ Hf) as [d [Hin _]].
  exists d. exact Hin.
Qed.

(** C8: [keyword_weight] does not influence the hybrid result. *)
Theorem hybrid_search_keyword_weight_unused sem kw query k w1 w2 :
  VectorStore.hybrid_search sem kw query k w1 =
  VectorStore.hybrid_search sem kw query k w2.
Proof. reflexivity. Qed.

(* ================================================================== *)
(** * Search threshold filtering *)

Section MinScore.
Let step := fun (m : Q) (p : Document * Q) =>
  let '(_, s) := p in if Qle_bool m s then m else s.

Lemma min_step_le m p : step m p <= m /\ step m p <= snd p.
Proof.
  destruct p as [d s]. unfold step. simpl.
  destruct (Qle_bool m s) eqn:E.
  - split; [apply Qle_refl|apply Qle_bool_imp_le, E].
  - split; [|apply Qle_refl].
    apply Qlt_le_weak, Qnot_le_lt. intros Hc. apply Qle_bool_iff in Hc. congruence.
Qed.

Lemma min_fold_le_acc l a : fold_left step l a <= a.
Proof.
  revert a; induction l as [|p l IH]; intros a; simpl; [apply Qle_refl|].
  eapply Qle_trans; [apply IH|apply min_step_le].
Qed.

Lemma min_fold_le l a x : In x l -> fold_left step l a <= snd x.
Proof.
  revert a; induction l as [|p l IH]; intros a Hx; simpl; [destruct Hx|].
  destruct Hx as [<-|Hx]; [|apply IH, Hx].
  eapply Qle_trans; [apply min_fold_le_acc|apply min_step_le].
Qed.

Lemma min_fold_in l a :
  fold_left step l a = a \/ In (fold_left step l a) (map snd l).
Proof.
  revert a; induction l as [|[d s] l IH]; intros a; [left; reflexivity|].
  change (fold_left step ((d, s) :: l) a) with (fold_left step l (step a (d, s))).
  change (map snd ((d, s) :: l)) with (s :: map snd l). cbn [In].
  assert (Hs : step a (d, s) = if Qle_bool a s then a else s) by reflexivity.
  rewrite Hs. destruct (Qle_bool a s).
  - destruct (IH a) as [->|H]; [left; reflexivity|right; right; exact H].
  - destruct (IH s) as [->|H]; right; [left; reflexivity|right; exact H].
Qed.

Lemma py_min_score_spec l m :
  py_min_score l = Some m ->
  In m (map snd l) /\ forall x, In x l -> m <= snd x.
Proof.
  destruct l as [|[d0 s0] l]; [discriminate|]. unfold py_min_score.
  intros H. injection H as <-. fold step.
  change (map snd ((d0, s0) :: l)) with (s0 :: map snd l). cbn [In].
  split.
  - destruct (min_fold_in l s0) as [->|H]; [left; reflexivity|right; exact H].
  - intros x [<-|Hx]; [apply min_fold_le_acc|apply min_fold_le, Hx].
Qed.
End MinScore.

(** C7: [search_images] keeps exactly the results with distance
    [<= score_threshold]; [filtered_count] and [total_count] are the
    sizes of the kept and the unfiltered lists; when nothing passes but
    candidates exist the message reports the minimum observed distance,
    and when something passes there is no message. Scenario B: scenario
    A with threshold 0.5 keeps [[A, B]], no message, counts 2 and 3. *)
Theorem search_images_threshold sem kw request :
  let rws := results_with_scores sem kw request in
  let resp := search_images sem kw request in
  results resp = filter (fun '(_, score) => Qle_bool score (score_threshold request)) rws /\
  (forall x, In x (results resp) <-> In x rws /\ snd x <= score_threshold request) /\
  filtered_count resp = List.length (results resp) /\
  total_count resp = List.length rws /\
  (results resp = [] -> rws <> [] ->
     exists min_score, message resp = Some (MsgClosest (score_threshold request) min_score)
       /\ In min_score (map snd rws) /\ forall x, In x rws -> min_score <= snd x) /\
  (results resp <> [] -> message resp = None) /\
  (let respB := search_images scenario_semantic scenario_keyword_rows scenario_B_request in
   map fst (results respB) = [scenario_doc "A"; scenario_doc "B"] /\
   message respB = None /\ filtered_count respB = 2%nat /\ total_count respB = 3%nat).
Proof.
  intros rws resp.
  assert (Hres : results resp =
    filter (fun '(_, score) => Qle_bool score (score_threshold request)) rws)
    by reflexivity.
  split; [exact Hres|]. split.
  { intros [d s]. rewrite Hres, filter_In. split.
    - intros [H1 H2]. split; [exact H1|apply Qle_bool_imp_le, H2].
    - intros [H1 H2]. split; [exact H1|apply Qle_bool_iff, H2]. }
  split; [reflexivity|]. split; [reflexivity|]. split.
  { intros Hnil Hne. subst resp. unfold search_images in *. simpl in *.
    fold rws in Hnil |- *. rewrite Hnil.
    destruct (py_min_score rws) as [m|] eqn:Em.
    - exists m. split; [reflexivity|]. apply py_min_score_spec, Em.
    - destruct rws as [|[? ?] ?]; [contradiction|discriminate]. }
  split.
  { intros Hne. subst resp. unfold search_images in *. simpl in *.
    fold rws in Hne |- *.
    destruct (filter _ rws); [contradiction|reflexivity]. }
  vm_compute. repeat split.
Qed.

(* ================================================================== *)
(** * Metadata.to_dict and the creation workflow *)

(** C10: [to_dict] always writes [None] for [s3_uri] and [s3_url] and
    has no [process] or [timestamp] key, whatever was assigned; so every
    document [make_documents] builds after [s3_uris_to_metadata] carries
    [metadata['s3_uri'] = None]. *)
Theorem to_dict_drops_s3_uri (m : Metadata) :
  dict_get "s3_uri" (to_dict m) = Some VNone /\
  dict_get "s3_url" (to_dict m) = Some VNone /\
  ~ In "process" (map fst (to_dict m)) /\
  ~ In "timestamp" (map fst (to_dict m)) /\
  (forall img_data metadata_list,
     Forall (fun doc => dict_get "s3_uri" (metadata doc) = Some VNone)
            (make_documents (s3_uris_to_metadata img_data metadata_list))).
Proof.
  repeat split.
  - simpl. intuition discriminate.
  - simpl. intuition discriminate.
  - intros img_data metadata_list. apply Forall_forall.
    intros doc Hdoc. unfold make_documents in Hdoc.
    apply in_map_iff in Hdoc as [m' [<- _]]. reflexivity.
Qed.

(* ================================================================== *)
(** * Canonical text builders *)

Lemma string_app_assoc (a b c : string) : a ++ b ++ c = (a ++ b) ++ c.
Proof. induction a as [|x a IH]; simpl; [reflexivity|rewrite IH; reflexivity]. Qed.

Lemma string_app_cancel_l (a b c : string) : a ++ b = a ++ c -> b = c.
Proof. induction a as [|x a IH]; simpl; [auto|intros H; injection H as H; auto]. Qed.

Lemma string_cons_inj (x : ascii) (s t : string) : String x s = String x t -> s = t.
Proof. intros H. injection H as H. exact H. Qed.

(** C9 (code): the two places that build the canonical text render the
    same field values differently, for every record. Both texts start
    with the description, [" Tags: [filename:"], the filename and
    [", "]; the creation text of [make_documents] goes on with
    [description:...], the update path's rebuild with [brand:...] (and
    the rebuild raises when [materials] is [None]). So the text built at
    creation and the text rebuilt from the same stored fields are never
    byte-identical. *)
Theorem canonical_text_paths_differ (m : Metadata) :
  update_page_content (to_dict m) <> Some (page_content (make_document m)).
Proof.
  unfold update_page_content, make_document, to_dict, dict_get_default.
  cbn [page_content]. simpl.
  destruct (py_join_comma (materials m)) as [mats|]; [|discriminate].
  intros H. injection H as H. apply string_app_cancel_l in H.
  repeat apply string_cons_inj in H.
  rewrite <- !string_app_assoc in H. apply string_app_cancel_l in H.
  simpl in H. repeat apply string_cons_inj in H. discriminate H.
Qed.

(* ================================================================== *)
(** * Update and delete handlers *)

(** C4 (code): ExifTool exits with status 1 on the scratch copy, yet
    [metadata_to_imgs] still returns the file, so [update_metadata]
    re-uploads the copy, replaces the index entry and reports success. *)
Lemma update_metadata_exiftool_failure_reuploads :
  exiftool_run exif_fail_env = Completed 1%Z /\
  In (S3Upload "switch.png")
     (fst (run (update_metadata exif_fail_env sample_update_request))) /\
  In (IndexDeleteById "id1")
     (fst (run (update_metadata exif_fail_env sample_update_request))) /\
  snd (run (update_metadata exif_fail_env sample_update_request)) =
    Ok [("description", VStr "New")].
Proof. vm_compute. intuition. Qed.



(** C6: [delete_image] always attempts the index deletion, attempts the
    object-store deletion whenever the S3 client could be built, reports
    each outcome as its own boolean, and raises (500) exactly when both
    fail. Scenario D: object-store deletion fails, index deletion
    removes one row: response [{false, true}], no error. *)
Theorem delete_image_independent env request :
  let s3_ok := match s3_delete env with DeleteObjectOk => true | _ => false end in
  let index_ok := match index_delete env with
                  | DeleteRowcount n => Nat.ltb 0 n
                  | DeleteRaised => false
                  end in
  In (IndexDeleteByUri (del_s3_uri request)) (fst (run (delete_image env request))) /\
  (s3_delete env <> S3InitRaised ->
   In (S3Delete (py_replace (del_s3_uri request) ("s3://" ++ del_bucket_name env ++ "/") ""))
      (fst (run (delete_image env request)))) /\
  snd (run (delete_image env request)) =
    (if s3_ok || index_ok then Ok (mkDeleteImageResponse s3_ok index_ok)
     else Raise 500%nat) /\
  snd (run (delete_image
              (mkDeleteEnv "mechlib-images" DeleteObjectRaised (DeleteRowcount 1))
              (mkDeleteImageRequest "s3://mechlib-images/switch.png" "switch.png"))) =
    Ok (mkDeleteImageResponse false true).
Proof.
  intros s3_ok index_ok. subst s3_ok index_ok.
  unfold run, delete_image, bind, emit, ret, raise.
  split; [|split; [|split]];
    [ | | | reflexivity];
    destruct (s3_delete env); destruct (index_delete env) as [|n];
    try destruct (Nat.ltb 0 n); simpl; auto;
    intros H; contradiction H; reflexivity.
Qed.

(* ================================================================== *)
(** * Witnesses *)

Lemma hybrid_boost_adjusted_witness :
  NoDup (candidate_filenames (scenario_semantic "q" 9)) /\
  exists x, dict_get "A" (VectorStore.hybrid_scores scenario_semantic
                            scenario_keyword_rows "q" 3) = Some (scenario_doc "A", x)
            /\ x == (1 # 4).
Proof.
  assert (Hnd : NoDup (candidate_filenames (scenario_semantic "q" (3 * 3)%nat))).
  { vm_compute. repeat constructor; simpl; intuition discriminate. }
  split; [exact Hnd|].
  destruct (hybrid_boost_adjusted scenario_semantic scenario_keyword_rows "q" 3 (1 # 2) Hnd)
    as [H1 _].
  destruct (H1 (scenario_doc "A") (4 # 10) "A") as [x [Hx Hq]];
    [simpl; auto|reflexivity|].
  exists x. split; [exact Hx|]. rewrite Hq. vm_compute. reflexivity.
Defined.


Lemma hybrid_search_semantic_only_witness :
  exists x,
    In (scenario_doc "A", x)
       (VectorStore.hybrid_search scenario_semantic scenario_keyword_rows "q" 3 (1 # 2)) /\
    exists d, In (scenario_doc "A", d) (scenario_semantic "q" 9).
Proof.
  set (out := VectorStore.hybrid_search scenario_semantic scenario_keyword_rows "q" 3 (1 # 2)).
  exists (snd (nth 0 out (scenario_doc "", 0))).
  assert (Hin : In (scenario_doc "A", snd (nth 0 out (scenario_doc "", 0))) out).
  { subst out. vm_compute. left. reflexivity. }
  split; [exact Hin|].
  exact (hybrid_search_semantic_only scenario_semantic scenario_keyword_rows "q" 3 (1 # 2)
           (scenario_doc "A") _ Hin).
Defined.

(* ================================================================== *)
(** * Further properties of the code *)

(** ** Hybrid ranker: one entry per filename, the last candidate wins *)

Lemma build_semantic_map_last f res rank acc :
  (last_candidate f res = None ->
   dict_get f (VectorStore.build_semantic_map rank res acc) = dict_get f acc) /\
  (forall doc d, last_candidate f res = Some (doc, d) ->
   exists r, dict_get f (VectorStore.build_semantic_map rank res acc) = Some (doc, r, d)).
Proof.
  revert rank acc; induction res as [|[doc0 d0] res IH]; intros rank acc; simpl.
  - split; [reflexivity|discriminate].
  - destruct (last_candidate f res) as [[doc1 d1]|] eqn:El.
    + split; [discriminate|]. intros doc d Hs. injection Hs as <- <-.
      apply (proj2 (IH (S rank) _)). reflexivity.
    + rewrite (proj1 (IH (S rank) _) eq_refl).
      destruct (doc_filename doc0) as [g|]; [|split; [reflexivity|discriminate]].
      rewrite dict_get_set.
      destruct (String.eqb g f) eqn:E.
      * apply String.eqb_eq in E; subst g. rewrite String.eqb_refl.
        split; [discriminate|]. intros doc d Hs. injection Hs as <- <-.
        exists rank. reflexivity.
      * assert (E' : String.eqb f g = false).
        { rewrite String.eqb_sym. exact E. }
        rewrite E'. split; [reflexivity|discriminate].
Qed.

Lemma hybrid_scores_get sem kw query k f :
  dict_get f (VectorStore.hybrid_scores sem kw query k) =
  option_map (fun '(doc, d) =>
                (doc, VectorStore.boosted_distance
                        (VectorStore._keyword_search kw query (k * 3)%nat) f d))
             (last_candidate f (sem query (k * 3)%nat)).
Proof.
  rewrite hybrid_scores_semantic, process_semantic_unfold.
  rewrite process_semantic_get_aux
    by (apply build_semantic_map_NoDup; constructor).
  destruct (last_candidate f (sem query (k * 3)%nat)) as [[doc d]|] eqn:El.
  - destruct (proj2 (build_semantic_map_last f (sem query (k * 3)%nat) 1 []) doc d El)
      as [r Hr].
    rewrite Hr. reflexivity.
  - rewrite (proj1 (build_semantic_map_last f (sem query (k * 3)%nat) 1 []) El).
    reflexivity.
Qed.

Lemma dict_get_In_NoDup {V} k v (d : dict V) :
  NoDup (map fst d) -> In (k, v) d -> dict_get k d = Some v.
Proof.
  induction d as [|[k0 v0] d IH]; simpl; [intros _ []|].
  intros Hnd [Heq|Hin].
  - injection Heq as -> ->. rewrite String.eqb_refl. reflexivity.
  - apply NoDup_cons_iff in Hnd as [Hk0 Hnd].
    destruct (String.eqb k k0) eqn:E.
    + apply String.eqb_eq in E; subst k0.
      apply (in_map fst) in Hin. contradiction.
    + apply IH; assumption.
Qed.

Lemma process_semantic_NoDup_aux kws sm acc :
  NoDup (map fst acc) ->
  NoDup (map fst (fold_left (fun (acc : dict (Document * Q))
                                 '((filename, (doc, _rank, distance))
                                   : string * (Document * nat * Q)) =>
               dict_set filename
                 (doc, VectorStore.boosted_distance kws filename distance) acc)
            sm acc)).
Proof.
  revert acc; induction sm as [|[g [[doc r] d]] sm IH]; intros acc H; simpl;
    [exact H|].
  apply IH, dict_set_NoDup, H.
Qed.

Lemma hybrid_scores_NoDup sem kw query k :
  NoDup (map fst (VectorStore.hybrid_scores sem kw query k)).
Proof.
  rewrite hybrid_scores_semantic, process_semantic_unfold.
  apply process_semantic_NoDup_aux. constructor.
Qed.

(** For every filename, the working map of [hybrid_search] holds the
    LAST semantic candidate carrying that filename, with its boosted
    distance (earlier candidates with the same filename are overwritten),
    and nothing for a filename no candidate carries; every returned pair
    is such an entry. *)
Theorem hybrid_search_last_candidate_wins sem kw query k w :
  let kws := VectorStore._keyword_search kw query (k * 3)%nat in
  (forall f,
     dict_get f (VectorStore.hybrid_scores sem kw query k) =
     option_map (fun '(doc, d) => (doc, VectorStore.boosted_distance kws f d))
                (last_candidate f (sem query (k * 3)%nat))) /\
  (forall doc x, In (doc, x) (VectorStore.hybrid_search sem kw query k w) ->
     exists f d, doc_filename doc = Some f /\
                 last_candidate f (sem query (k * 3)%nat) = Some (doc, d) /\
                 x = VectorStore.boosted_distance kws f d).
Proof.
  intros kws. split; [intros f; apply hybrid_scores_get|].
  intros doc x Hin.
  apply hybrid_search_from_scores in Hin as [f Hf].
  pose proof (hybrid_scores_inv sem kw query k) as Hinv.
  rewrite Forall_forall in Hinv.
  destruct (Hinv _ Hf) as [d [_ [Hfn _]]].
  apply dict_get_In_NoDup in Hf; [|apply hybrid_scores_NoDup].
  rewrite hybrid_scores_get in Hf.
  destruct (last_candidate f (sem query (k * 3)%nat)) as [[doc' d']|] eqn:El;
    [|discriminate].
  injection Hf as <- <-. exists f, d'. auto.
Qed.

Lemma sort_insert_perm {A} (key : A -> Q) x l :
  Permutation (sort_insert key x l) (x :: l).
Proof.
  induction l as [|y l IH]; simpl; [reflexivity|].
  destruct (Qle_bool (key y) (key x)); [|reflexivity].
  rewrite IH. apply perm_swap.
Qed.

Lemma py_sorted_perm {A} (key : A -> Q) l : Permutation (py_sorted key l) l.
Proof.
  unfold py_sorted.
  assert (H : forall acc, Permutation
            (fold_left (fun acc x => sort_insert key x acc) l acc) (l ++ acc)).
  { induction l as [|x l IH]; intros acc; simpl; [reflexivity|].
    rewrite IH, sort_insert_perm. apply Permutation_sym, Permutation_middle. }
  rewrite H, app_nil_r. reflexivity.
Qed.

Lemma NoDup_firstn_of {A} n (l : list A) : NoDup l -> NoDup (firstn n l).
Proof.
  intros H. rewrite <- (firstn_skipn n l) in H.
  exact (NoDup_app_remove_r _ _ H).
Qed.

Lemma last_candidate_In f res :
  last_candidate f res <> None <-> In f (candidate_filenames res).
Proof.
  induction res as [|[doc d] res IH]; simpl; [tauto|].
  destruct (last_candidate f res) as [c|];
    destruct (doc_filename doc) as [g|]; simpl.
  - split; [intros _; right; apply IH; discriminate|intros _; discriminate].
  - split; [intros _; apply IH; discriminate|intros _; discriminate].
  - destruct (String.eqb g f) eqn:E.
    + apply String.eqb_eq in E. split; [auto|discriminate].
    + apply String.eqb_neq in E. split; [tauto|].
      intros [H|H]; [congruence|]. apply IH in H. contradiction.
  - split; [tauto|]. intros H. apply IH in H. contradiction.
Qed.

Lemma dict_get_neq_None_In {V} k (d : dict V) :
  dict_get k d <> None <-> In k (map fst d).
Proof.
  split.
  - intros H. destruct (dict_get k d) as [v|] eqn:E; [|congruence].
    apply dict_get_Some_in in E. apply (in_map fst) in E. exact E.
  - intros H E. apply dict_get_None_notin in E. contradiction.
Qed.

Lemma hybrid_scores_keys sem kw query k f :
  In f (map fst (VectorStore.hybrid_scores sem kw query k)) <->
  In f (candidate_filenames (sem query (k * 3)%nat)).
Proof.
  rewrite <- dict_get_neq_None_In, hybrid_scores_get, <- last_candidate_In.
  destruct (last_candidate f (sem query (k * 3)%nat)) as [[doc d]|]; simpl;
    split; congruence.
Qed.

Lemma NoDup_same_elements_length (l1 l2 : list string) :
  NoDup l1 -> NoDup l2 -> (forall x, In x l1 <-> In x l2) ->
  List.length l1 = List.length l2.
Proof.
  intros H1 H2 H. apply Nat.le_antisymm.
  - apply NoDup_incl_length; [exact H1|intros x; apply H].
  - apply NoDup_incl_length; [exact H2|intros x; apply H].
Qed.

(** Every document [hybrid_search] returns carries a non-empty
    [filename] in its metadata (candidates without one are dropped), and
    no filename is returned twice. *)
Theorem hybrid_search_distinct_filenames sem kw query k w :
  (forall doc x, In (doc, x) (VectorStore.hybrid_search sem kw query k w) ->
     doc_filename doc <> None) /\
  NoDup (map (fun p => doc_filename (fst p))
             (VectorStore.hybrid_search sem kw query k w)).
Proof.
  set (hs := VectorStore.hybrid_scores sem kw query k).
  pose proof (hybrid_scores_inv sem kw query k) as Hinv. fold hs in Hinv.
  assert (Hmap : map (fun p => doc_filename (fst p)) (dict_values hs) =
                 map (fun e => Some (fst e)) hs).
  { unfold dict_values. rewrite map_map. apply map_ext_in.
    intros [f [doc x]] Hin. rewrite Forall_forall in Hinv.
    destruct (Hinv _ Hin) as [d [_ [Hf _]]]. simpl. exact Hf. }
  split.
  - intros doc x Hin. unfold VectorStore.hybrid_search in Hin. fold hs in Hin.
    apply In_firstn_In, py_sorted_In, In_dict_values in Hin as [f Hf].
    rewrite Forall_forall in Hinv. destruct (Hinv _ Hf) as [d [_ [Hfn _]]].
    rewrite Hfn. discriminate.
  - unfold VectorStore.hybrid_search. fold hs.
    rewrite <- firstn_map. apply NoDup_firstn_of.
    apply (Permutation_NoDup (Permutation_sym (Permutation_map _ (py_sorted_perm snd _)))).
    rewrite Hmap, <- (map_map fst Some).
    apply NoDup_map_NoDup_ForallPairs; [intros x y _ _ H; congruence|].
    apply hybrid_scores_NoDup.
Qed.

Lemma hybrid_search_length_eq sem kw query k w :
  List.length (VectorStore.hybrid_search sem kw query k w) =
  Nat.min k (List.length (nodup string_dec (candidate_filenames (sem query (k * 3)%nat)))).
Proof.
  unfold VectorStore.hybrid_search. rewrite length_firstn.
  rewrite (Permutation_length (py_sorted_perm snd _)).
  unfold dict_values. rewrite length_map.
  f_equal. rewrite <- (length_map fst).
  apply NoDup_same_elements_length.
  - apply hybrid_scores_NoDup.
  - apply NoDup_nodup.
  - intros x. rewrite hybrid_scores_keys, nodup_In. reflexivity.
Qed.

Lemma boosted_distance_bounds kws f d :
  0 <= d -> 0 <= VectorStore.boosted_distance kws f d <= d.
Proof.
  intros Hd. unfold VectorStore.boosted_distance.
  destruct (py_in f kws); [|split; [exact Hd|apply Qle_refl]].
  set (z := inject_Z (Z.of_nat (py_index f kws + 1))).
  assert (Hz : 0 < z).
  { unfold z. change 0 with (inject_Z 0). rewrite <- Zlt_Qlt. lia. }
  assert (Hb : 0 <= (3 # 10) * (1 / z)).
  { apply Qmult_le_0_compat; [discriminate|].
    apply Qle_shift_div_l; [exact Hz|]. rewrite Qmult_0_l. discriminate. }
  unfold py_max. destruct (Qle_bool (d - (3 # 10) * (1 / z)) 0) eqn:E.
  - split; [apply Qle_refl|exact Hd].
  - assert (Hlt : 0 < d - (3 # 10) * (1 / z)).
    { apply Qnot_le_lt. intros Hle. apply Qle_bool_iff in Hle. congruence. }
    split; lra.
Qed.

(** The keyword boost never pushes a result past its raw distance nor
    below zero: every pair [(doc, x)] returned by [hybrid_search] comes
    from a semantic candidate [(doc, d)], and if [d >= 0] (as cosine
    distances are) then [0 <= x <= d]. *)
Theorem hybrid_search_distance_bounds sem kw query k w doc x :
  In (doc, x) (VectorStore.hybrid_search sem kw query k w) ->
  exists d, In (doc, d) (sem query (k * 3)%nat) /\ (0 <= d -> 0 <= x /\ x <= d).
Proof.
  intros Hin. apply hybrid_search_from_scores in Hin as [f Hf].
  pose proof (hybrid_scores_inv sem kw query k) as Hinv.
  rewrite Forall_forall in Hinv.
  destruct (Hinv _ Hf) as [d [Hd [_ Hx]]].
  exists d. split; [exact Hd|]. intros H0. subst x.
  apply boosted_distance_bounds, H0.
Qed.

(** ** Effectful helpers *)

Lemma emit_all_run es tr : emit_all es tr = ((tr ++ es)%list, Ok tt).
Proof.
  revert tr; induction es as [|e es IH]; intros tr; simpl.
  - rewrite app_nil_r. reflexivity.
  - unfold bind, emit. rewrite IH, <- app_assoc. reflexivity.
Qed.

Lemma check_paths_exist_run env ps tr :
  check_paths_exist env ps tr =
  (tr, if forallb (path_exists env) ps then Ok tt else Raise 404%nat).
Proof.
  revert tr; induction ps as [|p ps IH]; intros tr; simpl; [reflexivity|].
  destruct (path_exists env p); simpl; [apply IH|reflexivity].
Qed.

Lemma metadata_to_imgs_one_run out m tr :
  metadata_to_imgs_one out m tr =
  if exif_args_ok m
  then ((tr ++ [ExifToolRun (filename m)])%list,
        Ok (match out with RunRaised => None | Completed _ => Some (filename m) end))
  else (tr, Ok None).
Proof.
  unfold metadata_to_imgs_one, exif_args_ok.
  destruct (materials m); destruct (process m) as [[]|]; destruct out; reflexivity.
Qed.

Lemma metadata_to_imgs_loop_run out acc ms tr :
  exists tr', Forall (fun e => exists p, e = ExifToolRun p) tr' /\
    metadata_to_imgs_loop out acc ms tr =
    ((tr ++ tr')%list,
     Ok (if exif_all_ok out (List.length acc) ms
         then Some (acc ++ map filename ms)%list else None)).
Proof.
  revert acc tr; induction ms as [|m ms IH]; intros acc tr; simpl.
  - exists []. split; [constructor|]. unfold ret. rewrite !app_nil_r. reflexivity.
  - unfold bind. rewrite metadata_to_imgs_one_run.
    destruct (exif_args_ok m); simpl.
    + destruct (out (List.length acc)) as [rc|]; simpl.
      * destruct (IH (acc ++ [filename m])%list (tr ++ [ExifToolRun (filename m)])%list)
          as [tr' [Htr' Heq]].
        exists (ExifToolRun (filename m) :: tr'). split.
        -- constructor; [eexists; reflexivity|exact Htr'].
        -- rewrite Heq, <- app_assoc, <- app_assoc, length_app, Nat.add_comm. simpl.
           destruct (exif_all_ok out (S (List.length acc)) ms); reflexivity.
      * exists [ExifToolRun (filename m)]. split.
        -- constructor; [eexists; reflexivity|constructor].
        -- reflexivity.
    + exists []. split; [constructor|]. rewrite app_nil_r. reflexivity.
Qed.

Lemma metadata_to_imgs_run out ms tr :
  exists tr', Forall (fun e => exists p, e = ExifToolRun p) tr' /\
    metadata_to_imgs out ms tr =
    ((tr ++ tr')%list,
     Ok (if exif_all_ok out 0 ms then map filename ms else [])).
Proof.
  destruct (metadata_to_imgs_loop_run out [] ms tr) as [tr' [Htr Heq]].
  exists tr'. split; [exact Htr|].
  unfold metadata_to_imgs, bind. rewrite Heq. simpl.
  destruct (exif_all_ok out 0 ms); reflexivity.
Qed.

Lemma exif_all_ok_indexed out i ms :
  exif_all_ok out i ms =
  forallb (fun '(j, m) => exif_args_ok m && completed (out j))
          (combine (seq i (List.length ms)) ms).
Proof.
  revert i; induction ms as [|m ms IH]; intros i; [reflexivity|].
  simpl. rewrite IH. reflexivity.
Qed.

Lemma add_files_run b up dir pf img tr :
  exists tr', Forall (fun e => exists key, e = S3Upload key) tr' /\
    (add_files b up dir pf img tr = ((tr ++ tr')%list, Raise 500%nat) \/
     exists img', add_files b up dir pf img tr = ((tr ++ tr')%list, Ok img')).
Proof.
  revert img tr; induction pf as [|file pf IH]; intros img tr; simpl.
  - exists []. split; [constructor|]. right. exists img. rewrite app_nil_r. reflexivity.
  - unfold bind, emit. destruct (up file).
    + match goal with
      | |- context [add_files b up dir pf ?i ?t] =>
          destruct (IH i t) as [tr' [Htr [Heq|[img' Heq]]]]
      end.
      * exists (S3Upload (s3_key_for dir (path_name file)) :: tr'). split.
        -- constructor; [eexists; reflexivity|exact Htr].
        -- left. rewrite Heq, <- app_assoc. reflexivity.
      * exists (S3Upload (s3_key_for dir (path_name file)) :: tr'). split.
        -- constructor; [eexists; reflexivity|exact Htr].
        -- right. exists img'. rewrite Heq, <- app_assoc. reflexivity.
    + exists [S3Upload (s3_key_for dir (path_name file))].
      split; [constructor; [eexists; reflexivity|constructor]|].
      right. exists img. reflexivity.
    + exists [S3Upload (s3_key_for dir (path_name file))].
      split; [constructor; [eexists; reflexivity|constructor]|].
      left. reflexivity.
Qed.

Lemma added_docs_app tr1 tr2 :
  added_docs (tr1 ++ tr2) = (added_docs tr1 ++ added_docs tr2)%list.
Proof. unfold added_docs. apply flat_map_app. Qed.

Lemma added_docs_nil tr :
  Forall (fun e => match e with IndexAdd _ => False | _ => True end) tr ->
  added_docs tr = [].
Proof.
  induction 1 as [|e tr He _ IH]; [reflexivity|].
  unfold added_docs in *. simpl. rewrite IH. destruct e; try reflexivity; contradiction.
Qed.

Lemma added_docs_exif tr :
  Forall (fun e => exists p, e = ExifToolRun p) tr -> added_docs tr = [].
Proof.
  intros H. apply added_docs_nil. eapply Forall_impl; [|exact H].
  intros e [p ->]. exact I.
Qed.

Lemma added_docs_upload tr :
  Forall (fun e => exists key, e = S3Upload key) tr -> added_docs tr = [].
Proof.
  intros H. apply added_docs_nil. eapply Forall_impl; [|exact H].
  intros e [p ->]. exact I.
Qed.

Lemma added_docs_map_IndexAdd docs : added_docs (map IndexAdd docs) = docs.
Proof.
  induction docs as [|d docs IH]; [reflexivity|].
  unfold added_docs in *. simpl. rewrite IH. reflexivity.
Qed.

Lemma added_docs_unlinks {A} (l : list A) :
  added_docs (map (fun _ => TempUnlink) l) = [].
Proof.
  induction l as [|x l IH]; [reflexivity|]. exact IH.
Qed.

(** The two ways [process_images] can end. *)
Lemma process_images_cases env request email ms tr r :
  ms = map (fun p => process_metadata request email (absolute env p)) (paths request) ->
  run (process_images env request email) = (tr, r) ->
  (exists e, r = Raise e /\ added_docs tr = []) \/
  (exists pre img, img <> [] /\ added_docs pre = [] /\
     forallb (path_exists env) (paths request) = true /\
     exif_all_ok (proc_exiftool_run env) 0 ms = true /\
     tr = (pre ++ map IndexAdd (make_documents (s3_uris_to_metadata
             (full_path_uris env img (map filename ms)) ms))
            ++ map (fun _ => TempUnlink) (map filename ms))%list /\
     r = Ok (List.length (map filename ms), img)).
Proof.
  intros Hms H. unfold run, process_images in H. cbv zeta in H. rewrite <- Hms in H.
  unfold bind at 1 in H. rewrite check_paths_exist_run in H.
  destruct (forallb (path_exists env) (paths request)) eqn:Ep;
    [|injection H as <- <-; left; exists 404%nat; split; reflexivity].
  unfold bind at 1 in H.
  destruct (proc_exiftool_helper_ok env); cbn [ret raise] in H;
    [|injection H as <- <-; left; exists 500%nat; split; reflexivity].
  unfold bind at 1 in H.
  destruct (metadata_to_imgs_run (proc_exiftool_run env) ms []) as [tr1 [Htr1 Heq1]].
  rewrite Heq1 in H. simpl app in H.
  destruct (exif_all_ok (proc_exiftool_run env) 0 ms) eqn:Eok;
    [|injection H as <- <-; left; exists 500%nat; split;
      [reflexivity|apply added_docs_exif, Htr1]].
  destruct (map filename ms) as [|f0 pf0] eqn:Emap;
    [injection H as <- <-; left; exists 500%nat; split;
     [reflexivity|apply added_docs_exif, Htr1]|].
  destruct (s3_bucket (proc_bucket env)) as [b|];
    [|injection H as <- <-; left; exists 500%nat; split;
      [reflexivity|apply added_docs_exif, Htr1]].
  unfold bind at 1, emit at 1 in H. unfold bind at 1 in H.
  destruct (add_files_run b (proc_upload env) (p_directory request) (f0 :: pf0) []
              (tr1 ++ [S3ClientInit])%list) as [tr2 [Htr2 [Heq2|[img Heq2]]]];
    rewrite Heq2 in H.
  - injection H as <- <-. left. exists 500%nat. split; [reflexivity|].
    rewrite !added_docs_app, (added_docs_exif _ Htr1), (added_docs_upload _ Htr2).
    reflexivity.
  - destruct img as [|e img'].
    + injection H as <- <-. left. exists 500%nat. split; [reflexivity|].
      rewrite !added_docs_app, (added_docs_exif _ Htr1), (added_docs_upload _ Htr2).
      reflexivity.
    + assert (Hpre : added_docs ((tr1 ++ [S3ClientInit]) ++ tr2 ++ [IndexSchemaSetup])%list
                     = []).
      { rewrite !added_docs_app, (added_docs_exif _ Htr1), (added_docs_upload _ Htr2).
        reflexivity. }
      unfold bind at 1, emit at 1 in H. unfold bind at 1 in H.
      destruct (proc_vs_init_ok env); cbn [ret raise] in H;
        [|injection H as <- <-; left; exists 500%nat; split;
          [reflexivity|rewrite !added_docs_app, (added_docs_exif _ Htr1),
           (added_docs_upload _ Htr2); reflexivity]].
      unfold bind at 1 in H.
      destruct (proc_index_add_ok env); cbn [ret raise] in H;
        [|injection H as <- <-; left; exists 500%nat; split;
          [reflexivity|rewrite !added_docs_app, (added_docs_exif _ Htr1),
           (added_docs_upload _ Htr2); reflexivity]].
      right. exists ((tr1 ++ [S3ClientInit]) ++ tr2 ++ [IndexSchemaSetup])%list, (e :: img').
      split; [discriminate|]. split; [exact Hpre|].
      split; [reflexivity|]. split; [reflexivity|].
      unfold bind, emit, ret in H. rewrite !emit_all_run in H.
      injection H as <- <-. rewrite <- !app_assoc. split; reflexivity.
Qed.

Lemma In_IndexAdd_added_docs d tr : In (IndexAdd d) tr -> In d (added_docs tr).
Proof.
  intros H. unfold added_docs. apply in_flat_map. exists (IndexAdd d).
  split; [exact H|left; reflexivity].
Qed.

Lemma s3_uris_to_metadata_person img_data ms m :
  In m (s3_uris_to_metadata img_data ms) -> exists m0, In m0 ms /\ person m = person m0.
Proof.
  unfold s3_uris_to_metadata. intros H. apply in_map_iff in H as [m0 [<- Hin]].
  exists m0. split; [exact Hin|].
  destruct (dict_get (filename m0) img_data) as [u|]; [|reflexivity].
  destruct (String.eqb u ""); reflexivity.
Qed.

(** Every document [process_images] indexes is built by [make_document]
    from a [Metadata] whose [person] is the authenticated user's email. *)
Lemma process_images_added_doc env request email d :
  In d (added_docs (fst (run (process_images env request email)))) ->
  exists m, d = make_document m /\ person m = VStr email.
Proof.
  destruct (run (process_images env request email)) as [tr r] eqn:H. simpl.
  destruct (process_images_cases env request email _ tr r eq_refl H)
    as [[e [_ Hnil]]|[pre [img [_ [Hpre [_ [_ [Htr _]]]]]]]].
  - rewrite Hnil. intros [].
  - subst tr. rewrite !added_docs_app, Hpre, added_docs_map_IndexAdd, added_docs_unlinks.
    rewrite app_nil_r. simpl. intros Hin.
    unfold make_documents in Hin. apply in_map_iff in Hin as [m [<- Hm]].
    exists m. split; [reflexivity|].
    apply s3_uris_to_metadata_person in Hm as [m0 [Hm0 ->]].
    apply in_map_iff in Hm0 as [p [<- _]]. reflexivity.
Qed.

Lemma find_all_false {A} (f : A -> bool) l :
  (forall x, In x l -> f x = false) -> find f l = None.
Proof.
  induction l as [|x l IH]; intros H; simpl; [reflexivity|].
  rewrite (H x (or_introl eq_refl)). apply IH. intros y Hy. apply H. right. exact Hy.
Qed.

Lemma rows_without_s3_uri (rows : list (string * dict PyVal)) s3_uri :
  (forall row, In row rows -> dict_get "s3_uri" (snd row) = Some VNone) ->
  select_by_s3_uri_rows rows s3_uri = NoRow /\
  delete_by_s3_uri_rowcount rows s3_uri = 0%nat.
Proof.
  intros H.
  assert (Hf : forall row, In row rows -> s3_uri_matches s3_uri (snd row) = false).
  { intros row Hin. unfold s3_uri_matches. rewrite (H row Hin). reflexivity. }
  split.
  - unfold select_by_s3_uri_rows. rewrite (find_all_false _ _ Hf). reflexivity.
  - unfold delete_by_s3_uri_rowcount.
    assert (Hnil : filter (fun row => s3_uri_matches s3_uri (snd row)) rows = []).
    { clear H. induction rows as [|row l IH]; simpl; [reflexivity|].
      rewrite (Hf row (or_introl eq_refl)). apply IH.
      intros y Hy. apply Hf. right. exact Hy. }
    rewrite Hnil. reflexivity.
Qed.

Lemma created_rows_without_s3_uri (rows : list (string * dict PyVal)) s3_uri :
  (forall row, In row rows -> created_by_process_images (snd row)) ->
  select_by_s3_uri_rows rows s3_uri = NoRow /\
  delete_by_s3_uri_rowcount rows s3_uri = 0%nat.
Proof.
  intros H. apply rows_without_s3_uri. intros row Hrow.
  destruct (H row Hrow) as [env [request [email [d [Hd ->]]]]].
  apply In_IndexAdd_added_docs, process_images_added_doc in Hd as [m [-> _]].
  reflexivity.
Qed.

Lemma added_docs_In_IndexAdd d tr : In d (added_docs tr) -> In (IndexAdd d) tr.
Proof.
  unfold added_docs. intros H. apply in_flat_map in H as [e [He Hd]].
  destruct e; try contradiction. destruct Hd as [<-|[]]. exact He.
Qed.

(** The rows a [process_images] run leaves in the index, under any ids. *)
Lemma created_rows_of_run env request email (ids : list string) (row : string * dict PyVal) :
  In row (combine ids (map metadata
            (added_docs (fst (run (process_images env request email)))))) ->
  created_by_process_images (snd row).
Proof.
  destruct row as [i md]. intros Hin. apply in_combine_r, in_map_iff in Hin as [d [<- Hd]].
  exists env, request, email, d. split; [apply added_docs_In_IndexAdd, Hd|reflexivity].
Qed.

(** ** process_images *)

(** [process_images] overrides the request's [person]: every document it
    adds to the index records the authenticated user's email as
    [person], whatever the request said, and records [s3_uri] as [None]. *)
Theorem process_images_person_is_user env request email d :
  In (IndexAdd d) (fst (run (process_images env request email))) ->
  dict_get "person" (metadata d) = Some (VStr email) /\
  dict_get "s3_uri" (metadata d) = Some VNone.
Proof.
  intros H. apply In_IndexAdd_added_docs, process_images_added_doc in H
    as [m [-> Hp]].
  split; [simpl; rewrite Hp; reflexivity|reflexivity].
Qed.

(** A path that does not exist makes [process_images] answer 404 before
    any ExifTool run, upload or index write. *)
Theorem process_images_missing_path env request email p :
  In p (paths request) -> path_exists env p = false ->
  run (process_images env request email) = ([], Raise 404%nat).
Proof.
  intros Hin Hp. unfold run, process_images, bind at 1.
  rewrite check_paths_exist_run.
  replace (forallb (path_exists env) (paths request)) with false; [reflexivity|].
  symmetry. apply not_true_iff_false. rewrite forallb_forall.
  intros Hall. rewrite (Hall p Hin) in Hp. discriminate.
Qed.

(** When [process_images] succeeds, [files_processed] is the number of
    requested paths, the returned [s3_uris] map is non-empty, and one
    index document was added per path, even if a [ClientError] cut the
    upload loop short. *)
Theorem process_images_success_counts env request email n img :
  snd (run (process_images env request email)) = Ok (n, img) ->
  n = List.length (paths request) /\ img <> [] /\
  List.length (added_docs (fst (run (process_images env request email)))) =
  List.length (paths request).
Proof.
  destruct (run (process_images env request email)) as [tr r] eqn:H. simpl.
  intros ->.
  destruct (process_images_cases env request email _ tr (Ok (n, img)) eq_refl H)
    as [[e [He _]]|[pre [img' [Himg [Hpre [_ [_ [Htr Hr]]]]]]]]; [discriminate|].
  injection Hr as -> ->. subst tr.
  rewrite !added_docs_app, Hpre, added_docs_map_IndexAdd, added_docs_unlinks.
  unfold make_documents, s3_uris_to_metadata. simpl.
  rewrite app_nil_r, !length_map. auto.
Qed.

(** Records created by [process_images] store [s3_uri] as JSON null, so
    [get_document_by_s3_uri]'s [langchain_metadata->>'s3_uri' = %s] never
    finds them: on an index holding only such records, from any number
    of runs, [update_metadata] answers 404 for every request, right after
    the lookup, once its two managers are constructed. *)
Theorem process_images_records_not_updatable rows uenv ureq :
  (forall row, In row rows -> created_by_process_images (snd row)) ->
  select_by_s3_uri uenv = select_by_s3_uri_rows rows ->
  vs_init_ok uenv = true -> aws_bucket_name uenv <> "" ->
  run (update_metadata uenv ureq) =
  ([IndexSchemaSetup; S3ClientInit; IndexLookup (req_s3_uri ureq)], Raise 404%nat).
Proof.
  intros Hrows Hsel Hvs Hb.
  assert (Hs : select_by_s3_uri_rows rows (req_s3_uri ureq) = NoRow)
    by apply (created_rows_without_s3_uri rows _ Hrows).
  unfold run, update_metadata, get_document_by_s3_uri, bind, emit, ret, raise.
  rewrite Hvs. apply String.eqb_neq in Hb. rewrite Hb. simpl.
  rewrite Hsel, Hs. reflexivity.
Qed.

(** On an index holding only records created by [process_images], from
    any number of runs, [delete_image]'s DELETE (whether it raises or
    runs against these rows) removes no row, so [deleted_from_vector_db]
    is never reported: the request succeeds only through the
    object-store deletion, and answers 500 when that fails. *)
Theorem process_images_records_not_deletable rows denv dreq :
  (forall row, In row rows -> created_by_process_images (snd row)) ->
  index_delete denv = DeleteRaised \/
  index_delete denv = DeleteRowcount (delete_by_s3_uri_rowcount rows (del_s3_uri dreq)) ->
  snd (run (delete_image denv dreq)) =
  match s3_delete denv with
  | DeleteObjectOk => Ok (mkDeleteImageResponse true false)
  | _ => Raise 500%nat
  end.
Proof.
  intros Hrows Hidx.
  assert (Hd : delete_by_s3_uri_rowcount rows (del_s3_uri dreq) = 0%nat)
    by apply (created_rows_without_s3_uri rows _ Hrows).
  rewrite Hd in Hidx.
  unfold run, delete_image, bind, emit, ret, raise.
  destruct Hidx as [Hi|Hi]; rewrite Hi; destruct (s3_delete denv); reflexivity.
Qed.

(** ** search_images *)

(** A document built by [make_documents] (whose [s3_uri] is [None]) that
    passes the score threshold makes the whole search fail with 500:
    [generate_presigned_url] raises [ValueError] on [None], and the
    handler turns it into a 500. *)
Theorem search_images_created_doc_500 sem kw s3_init_ok presign request m x :
  In (make_document m, x) (results (search_images sem kw request)) ->
  search_images_handler sem kw s3_init_ok presign request = Raise 500%nat.
Proof.
  intros Hin. unfold search_images_handler. cbv zeta.
  destruct s3_init_ok; [|reflexivity]. cbn [negb].
  match goal with
  | |- context [forallb ?g (results (search_images sem kw request))] =>
      destruct (forallb g (results (search_images sem kw request))) eqn:E; [|reflexivity]
  end.
  rewrite forallb_forall in E. specialize (E _ Hin). simpl in E. discriminate.
Qed.

(** ** ImageProcessor.metadata_to_imgs *)

(** [metadata_to_imgs] is all-or-nothing: it returns every filename, in
    order, when each [Metadata] has iterable [materials] and a set
    [process] and its own ExifTool run (the [i]-th for the [i]-th item)
    completes, a non-zero return code being only logged; and it returns
    [[]] as soon as one item raises, whatever the earlier items did. *)
Theorem metadata_to_imgs_all_or_nothing out ms :
  snd (run (metadata_to_imgs out ms)) =
  Ok (if forallb (fun '(i, m) => exif_args_ok m && completed (out i))
           (combine (seq 0 (List.length ms)) ms)
      then map filename ms else []).
Proof.
  destruct (metadata_to_imgs_run out ms []) as [tr [_ H]].
  unfold run. rewrite H, exif_all_ok_indexed. reflexivity.
Qed.

(** ** S3_StoreManager.add_files *)

Lemma add_files_prefix_ok b up dir pre l img tr :
  (forall f, In f pre -> up f = UploadOk) ->
  add_files b up dir (pre ++ l) img tr =
  add_files b up dir l
    (fold_left (fun acc f => dict_set (path_name f)
                  ("s3://" ++ b ++ "/" ++ s3_key_for dir (path_name f)) acc) pre img)
    (tr ++ map (fun f => S3Upload (s3_key_for dir (path_name f))) pre)%list.
Proof.
  revert img tr; induction pre as [|f pre IH]; intros img tr H; simpl.
  - rewrite app_nil_r. reflexivity.
  - unfold bind, emit. rewrite (H f (or_introl eq_refl)).
    rewrite IH by (intros g Hg; apply H; right; exact Hg).
    rewrite <- app_assoc. reflexivity.
Qed.

Lemma add_files_fold_get b dir pf img n :
  dict_get n (fold_left (fun acc f => dict_set (path_name f)
                  ("s3://" ++ b ++ "/" ++ s3_key_for dir (path_name f)) acc) pf img) =
  if existsb (String.eqb n) (map path_name pf)
  then Some ("s3://" ++ b ++ "/" ++ s3_key_for dir n)
  else dict_get n img.
Proof.
  revert img; induction pf as [|f pf IH]; intros img; simpl; [reflexivity|].
  rewrite IH, dict_get_set.
  destruct (String.eqb n (path_name f)) eqn:E; simpl.
  - apply String.eqb_eq in E. subst n.
    destruct (existsb (String.eqb (path_name f)) (map path_name pf)); reflexivity.
  - reflexivity.
Qed.

(** When every upload succeeds, [add_files] uploads each file once, in
    order, under [directory/name] (or [name] when [directory] is [None]
    or empty), and [img_data] maps each file's name to
    [s3://bucket/key] and holds no other key. *)
Theorem add_files_all_uploaded b up dir pf :
  (forall f, In f pf -> up f = UploadOk) ->
  exists img,
    run (add_files b up dir pf []) =
      (map (fun f => S3Upload (s3_key_for dir (path_name f))) pf, Ok img) /\
    (forall f, In f pf ->
       dict_get (path_name f) img =
       Some ("s3://" ++ b ++ "/" ++ s3_key_for dir (path_name f))) /\
    (forall n, In n (map fst img) -> In n (map path_name pf)).
Proof.
  intros H. unfold run.
  pose proof (add_files_prefix_ok b up dir pf [] [] [] H) as Heq.
  rewrite app_nil_r in Heq. rewrite Heq. cbn [add_files]. unfold ret.
  eexists. split; [reflexivity|]. split.
  - intros f Hf. rewrite add_files_fold_get.
    replace (existsb (String.eqb (path_name f)) (map path_name pf)) with true;
      [reflexivity|].
    symmetry. apply existsb_exists. exists (path_name f).
    split; [apply in_map, Hf|apply String.eqb_refl].
  - intros n Hn. apply dict_get_neq_None_In in Hn.
    rewrite add_files_fold_get in Hn.
    destruct (existsb (String.eqb n) (map path_name pf)) eqn:E; [|simpl in Hn; congruence].
    apply existsb_exists in E as [n' [Hin Heq']].
    apply String.eqb_eq in Heq'. subst n'. exact Hin.
Qed.

(** A [ClientError] on one file ends [add_files] quietly: the files
    after it are never uploaded and [img_data] is exactly what uploading
    the files before it produced. *)
Theorem add_files_client_error_stops b up dir pre f post :
  (forall g, In g pre -> up g = UploadOk) -> up f = UploadClientError ->
  exists img,
    run (add_files b up dir (pre ++ f :: post) []) =
      (map (fun g => S3Upload (s3_key_for dir (path_name g))) (pre ++ [f]), Ok img) /\
    run (add_files b up dir pre []) =
      (map (fun g => S3Upload (s3_key_for dir (path_name g))) pre, Ok img).
Proof.
  intros Hpre Hf. unfold run.
  rewrite (add_files_prefix_ok b up dir pre (f :: post) [] [] Hpre).
  pose proof (add_files_prefix_ok b up dir pre [] [] [] Hpre) as Hp.
  rewrite app_nil_r in Hp. rewrite Hp.
  simpl. unfold bind, emit. rewrite Hf. simpl.
  eexists. split; [|reflexivity]. rewrite map_app. reflexivity.
Qed.

(** ** Object-store keys: the s3 URI round trip *)

Lemma string_length_app (a b : string) :
  String.length (a ++ b) = (String.length a + String.length b)%nat.
Proof. induction a as [|x a IH]; simpl; [reflexivity|rewrite IH; reflexivity]. Qed.

Lemma prefix_app_self (pat r : string) : String.prefix pat (pat ++ r) = true.
Proof.
  induction pat as [|x pat IH]; simpl; [destruct r; reflexivity|].
  destruct (Ascii.ascii_dec x x) as [_|Hn]; [exact IH|contradiction Hn; reflexivity].
Qed.

Lemma substring_0_all (m : nat) (r : string) :
  (String.length r <= m)%nat -> substring 0 m r = r.
Proof.
  revert m; induction r as [|c r IH]; intros m H; simpl.
  - destruct m; reflexivity.
  - simpl in H. destruct m as [|m]; [lia|]. rewrite IH by lia. reflexivity.
Qed.

Lemma substring_after_prefix (pat r : string) (m : nat) :
  (String.length r <= m)%nat ->
  substring (String.length pat) m (pat ++ r) = r.
Proof.
  intros H. induction pat as [|x pat IH]; simpl; [apply substring_0_all, H|exact IH].
Qed.

Lemma replace_fuel_no_occurrence fuel (pat new r : string) :
  pat <> "" -> occurs_in pat r = false -> (String.length r <= fuel)%nat ->
  replace_fuel fuel pat new r = r.
Proof.
  intros Hpat. revert fuel; induction r as [|c r IH]; intros fuel Hocc Hlen.
  - destruct fuel; reflexivity.
  - destruct fuel as [|fuel]; [simpl in Hlen; lia|].
    simpl in Hocc. apply orb_false_iff in Hocc as [Hp Hocc].
    simpl. replace (String.eqb pat "") with false
      by (symmetry; apply String.eqb_neq, Hpat).
    rewrite Hp. rewrite IH by (simpl in Hlen; lia || exact Hocc). reflexivity.
Qed.

Lemma replace_after_prefix (pat key : string) fuel :
  pat <> "" -> occurs_in pat key = false ->
  (String.length (pat ++ key) <= S fuel)%nat ->
  replace_fuel (S fuel) pat "" (pat ++ key) = key.
Proof.
  intros Hpat Hocc Hlen.
  pose proof (prefix_app_self pat key) as Hpre.
  pose proof (substring_after_prefix pat key (String.length (pat ++ key))) as Hsub.
  rewrite string_length_app in Hsub, Hlen.
  assert (Hp1 : (1 <= String.length pat)%nat)
    by (destruct pat; [contradiction Hpat; reflexivity|simpl; lia]).
  specialize (Hsub ltac:(lia)).
  rewrite <- string_length_app in Hsub.
  destruct (pat ++ key) as [|c s] eqn:Es.
  { destruct pat; [contradiction Hpat; reflexivity|discriminate]. }
  cbn [replace_fuel].
  rewrite (proj2 (String.eqb_neq pat "") Hpat), Hpre, Hsub.
  apply replace_fuel_no_occurrence; [exact Hpat|exact Hocc|lia].
Qed.

(** [update_metadata] and [delete_image] recover the object key from
    the URI that [add_files] records ([f"s3://{bucket}/{s3_key}"]) with
    [replace(f"s3://{bucket}/", "")]: this gives back the uploaded key
    whenever the key itself does not contain [s3://bucket/]. *)
Theorem s3_key_round_trip bucket key :
  occurs_in ("s3://" ++ bucket ++ "/") key = false ->
  py_replace ("s3://" ++ bucket ++ "/" ++ key) ("s3://" ++ bucket ++ "/") "" = key.
Proof.
  intros Hocc. rewrite (string_app_assoc bucket "/" key).
  rewrite (string_app_assoc "s3://" (bucket ++ "/") key).
  unfold py_replace.
  destruct (String.length (("s3://" ++ bucket ++ "/") ++ key)) as [|n] eqn:El;
    [discriminate|].
  apply replace_after_prefix; [discriminate|exact Hocc|rewrite El; lia].
Qed.

(** ** ImageFetcher.remove_path *)

(** [remove_path(path)] never removes an entry whose filename is
    [path]: if every entry has that filename the list is unchanged,
    otherwise exactly the first entry with a DIFFERENT filename is
    removed. *)
Theorem remove_path_removes_first_other path ms :
  (Forall (fun m => filename m = path) ms /\ remove_path path ms = ms) \/
  (exists pre m post, ms = (pre ++ m :: post)%list /\
     Forall (fun m' => filename m' = path) pre /\ filename m <> path /\
     remove_path path ms = (pre ++ post)%list).
Proof.
  induction ms as [|m ms IH]; [left; split; [constructor|reflexivity]|].
  simpl. destruct (String.eqb (filename m) path) eqn:E; simpl.
  - apply String.eqb_eq in E.
    destruct IH as [[Hall Heq]|[pre [m' [post [Hms [Hpre [Hm' Heq]]]]]]].
    + left. split; [constructor; assumption|rewrite Heq; reflexivity].
    + right. exists (m :: pre), m', post. subst ms. simpl.
      split; [reflexivity|]. split; [constructor; assumption|].
      split; [exact Hm'|rewrite Heq; reflexivity].
  - right. exists [], m, ms. apply String.eqb_neq in E.
    split; [reflexivity|]. split; [constructor|]. split; [exact E|reflexivity].
Qed.

(** ** update_metadata *)

Lemma apply_field_get key k v st :
  dict_get key (fst (apply_field k v st)) =
    (if String.eqb key k
     then match v with Some x => Some x | None => dict_get key (fst st) end
     else dict_get key (fst st)) /\
  dict_get key (snd (apply_field k v st)) =
    (if String.eqb key k
     then match v with Some x => Some x | None => dict_get key (snd st) end
     else dict_get key (snd st)).
Proof.
  unfold apply_field. destruct v as [x|]; simpl.
  - rewrite !dict_get_set. split; reflexivity.
  - destruct (String.eqb key k); split; reflexivity.
Qed.

Ltac apply_field_rewrite :=
  repeat match goal with
  | |- context [dict_get ?key (fst (apply_field ?k ?v ?st))] =>
      rewrite (proj1 (apply_field_get key k v st))
  | |- context [dict_get ?key (snd (apply_field ?k ?v ?st))] =>
      rewrite (proj2 (apply_field_get key k v st))
  end.

Ltac merge_case :=
  simpl;
  repeat match goal with
  | |- context [option_map _ (?f ?r)] =>
      lazymatch type of r with UpdateMetadataRequest => destruct (f r) end
  end;
  split; reflexivity.

Lemma apply_request_get request md key :
  dict_get key (fst (apply_request request md)) =
    match requested_value request key with
    | Some v => Some v
    | None => dict_get key md
    end /\
  dict_get key (snd (apply_request request md)) = requested_value request key.
Proof.
  unfold apply_request. apply_field_rewrite. unfold requested_value. simpl fst; simpl snd.
  destruct (String.eqb_spec key "description") as [->|N1]; [merge_case|].
  destruct (String.eqb_spec key "brand") as [->|N2]; [merge_case|].
  destruct (String.eqb_spec key "materials") as [->|N3]; [merge_case|].
  destruct (String.eqb_spec key "process") as [->|N4]; [merge_case|].
  destruct (String.eqb_spec key "mechanism") as [->|N5]; [merge_case|].
  destruct (String.eqb_spec key "project") as [->|N6]; [merge_case|].
  destruct (String.eqb_spec key "person") as [->|N7]; [merge_case|].
  split; reflexivity.
Qed.

(** How [update_metadata] merges a request into the stored metadata:
    every field the request sets overwrites the stored value, every
    other key (including [filename] and [s3_uri]) keeps its stored value,
    and [updated_fields] lists exactly the fields the request sets. *)
Theorem update_metadata_merge request md key :
  dict_get key (fst (apply_request request md)) =
    match requested_value request key with
    | Some v => Some v
    | None => dict_get key md
    end /\
  dict_get key (snd (apply_request request md)) = requested_value request key.
Proof. apply apply_request_get. Qed.

Lemma metadata_to_imgs_single out m tr :
  metadata_to_imgs out [m] tr =
  if exif_args_ok m
  then ((tr ++ [ExifToolRun (filename m)])%list,
        Ok (if completed (out 0%nat) then [filename m] else []))
  else (tr, Ok []).
Proof.
  unfold metadata_to_imgs, metadata_to_imgs_loop, bind.
  rewrite metadata_to_imgs_one_run.
  destruct (exif_args_ok m); [|reflexivity].
  change (List.length (@nil string)) with 0%nat. destruct (out 0%nat); reflexivity.
Qed.

Lemma py_join_comma_some v : v <> VNone -> exists s, py_join_comma v = Some s.
Proof. destruct v; simpl; intros H; [contradiction H; reflexivity|eexists; reflexivity..]. Qed.

(** Once ExifTool accepted the merged metadata, the text rebuild from the
    merged dict cannot raise: it reads back the same [materials] and
    [process] values. *)
Lemma update_page_content_after_exif request md :
  opt_list (req_materials request) (dict_get_default "materials" (VList []) md) <> VNone ->
  opt_list (req_process request) (dict_get_default "process" (VList []) md) <> VNone ->
  exists pc, update_page_content (fst (apply_request request md)) = Some pc.
Proof.
  intros Hm Hp.
  assert (Em : dict_get_default "materials" (VList []) (fst (apply_request request md)) =
               opt_list (req_materials request) (dict_get_default "materials" (VList []) md)).
  { unfold dict_get_default. rewrite (proj1 (apply_request_get request md "materials")).
    unfold requested_value. simpl. destruct (req_materials request); reflexivity. }
  assert (Ep : dict_get_default "process" (VList []) (fst (apply_request request md)) =
               opt_list (req_process request) (dict_get_default "process" (VList []) md)).
  { unfold dict_get_default. rewrite (proj1 (apply_request_get request md "process")).
    unfold requested_value. simpl. destruct (req_process request); reflexivity. }
  unfold update_page_content. rewrite Em, Ep.
  destruct (py_join_comma_some _ Hm) as [s1 ->].
  destruct (py_join_comma_some _ Hp) as [s2 ->].
  eexists. reflexivity.
Qed.

Ltac not_in H :=
  simpl in H; repeat (destruct H as [H|H]; [discriminate H|]); destruct H.

Ltac no_index_write H Hw :=
  simpl in H; repeat (destruct H as [<-|H]; [simpl in Hw; discriminate Hw|]); destruct H.

(** A failure before the re-upload reached the index. *)
Ltac early_failure H :=
  injection H as <- <-; right; eexists; split; [reflexivity|];
  split; [let d := fresh "d" in let Hd := fresh "Hd" in intros d Hd; not_in Hd|];
  split; [let e := fresh "e" in let He := fresh "He" in let Hw := fresh "Hw" in
          intros e He Hw; no_index_write He Hw|].

(** The ways [update_metadata] can end. *)
Lemma update_metadata_cases env request tr r :
  run (update_metadata env request) = (tr, r) ->
  let uri := req_s3_uri request in
  let key := py_replace uri ("s3://" ++ aws_bucket_name env ++ "/") "" in
  (exists id md pc, r = Ok (snd (apply_request request md)) /\
     select_by_s3_uri env uri = Row id md /\
     download_ok env = true /\ upload_ok env = true /\
     index_delete_ok env = true /\ index_add_ok env = true /\
     update_page_content (fst (apply_request request md)) = Some pc /\
     tr = [IndexSchemaSetup; S3ClientInit; IndexLookup uri; S3Download key;
           ExifToolRun temp_path; S3Upload key; TempUnlink;
           if String.eqb id "" then IndexDeleteByUri uri else IndexDeleteById id;
           IndexAdd (mkDocument pc (fst (apply_request request md)))]) \/
  (exists e, r = Raise e /\
     (forall d, ~ In (IndexAdd d) tr) /\
     (forall e', In e' tr -> is_index_record_write e' = true ->
        index_add_ok env = false /\ upload_ok env = true /\ In (S3Upload key) tr) /\
     (upload_ok env = true -> In (S3Upload key) tr ->
        index_delete_ok env = false \/ index_add_ok env = false)).
Proof.
  intros H uri key.
  unfold run, update_metadata, get_document_by_s3_uri in H.
  unfold bind, emit, ret, raise in H. cbv beta iota zeta in H.
  fold uri key in H.
  destruct (vs_init_ok env); cbv beta iota in H;
    [|early_failure H; intros _ Hin; not_in Hin].
  destruct (String.eqb (aws_bucket_name env) ""); cbv beta iota in H;
    [early_failure H; intros _ Hin; not_in Hin|].
  destruct (select_by_s3_uri env uri) as [id md| |] eqn:Es; cbv beta iota in H;
    [|early_failure H; intros _ Hin; not_in Hin..].
  destruct (dict_get "description" md); cbv beta iota in H;
    [|early_failure H; intros _ Hin; not_in Hin].
  destruct (download_ok env) eqn:Ed; cbv beta iota in H;
    [|early_failure H; intros _ Hin; not_in Hin].
  destruct (exiftool_helper_ok env); cbv beta iota in H;
    [|early_failure H; intros _ Hin; not_in Hin].
  rewrite metadata_to_imgs_single in H.
  match type of H with context [exif_args_ok ?m] => destruct (exif_args_ok m) eqn:Ex end;
    cbv beta iota in H;
    [|early_failure H; intros _ Hin; not_in Hin].
  destruct (completed (exiftool_run env)); cbv beta iota in H;
    [|early_failure H; intros _ Hin; not_in Hin].
  destruct (upload_ok env) eqn:Eu; cbv beta iota in H;
    [|early_failure H; intros Hu; discriminate Hu].
  unfold exif_args_ok in Ex. simpl in Ex.
  destruct (update_page_content_after_exif request md) as [pc Hpc].
  { destruct (opt_list (req_materials request) (dict_get_default "materials" (VList []) md));
      [discriminate|discriminate|discriminate]. }
  { destruct (opt_list (req_materials request) (dict_get_default "materials" (VList []) md));
      destruct (opt_list (req_process request) (dict_get_default "process" (VList []) md));
      discriminate. }
  destruct (apply_request request md) as [md' uf] eqn:Ea. cbv beta iota in H.
  simpl in Hpc. rewrite Hpc in H. cbv beta iota in H.
  destruct (index_delete_ok env) eqn:Edel; cbv beta iota in H;
    [|early_failure H; intros _ _; left; reflexivity].
  destruct (index_add_ok env) eqn:Eadd.
  - left. exists id, md, pc. rewrite Ea. cbn [fst snd]. rewrite Hpc.
    destruct (String.eqb id ""); cbv beta iota in H;
      injection H as <- <-; repeat split; reflexivity.
  - destruct (String.eqb id ""); cbv beta iota in H;
      injection H as <- <-; right; eexists; (split; [reflexivity|]);
      (split; [intros d Hd; not_in Hd|]);
      (split; [|intros _ _; right; reflexivity]);
      intros e He Hw; simpl in He;
      (repeat (destruct He as [<-|He]; [simpl in Hw; discriminate Hw|]));
      (destruct He as [<-|[]]; split; [reflexivity|split; [reflexivity|simpl; tauto]]).
Qed.

(** A successful [update_metadata] performs exactly these steps, in
    this order: schema setup, S3 client creation, the lookup, the
    download, one ExifTool run on the scratch copy, the re-upload under
    the same key, the scratch removal, the deletion of the old index
    entry (by [langchain_id], or by [s3_uri] when the id is empty) and
    the insertion of the rebuilt document carrying the merged metadata;
    it returns the request's fields as [updated_fields]. *)
Theorem update_metadata_success_trace env request fields :
  snd (run (update_metadata env request)) = Ok fields ->
  let uri := req_s3_uri request in
  let key := py_replace uri ("s3://" ++ aws_bucket_name env ++ "/") "" in
  exists id md pc,
    select_by_s3_uri env uri = Row id md /\
    fields = snd (apply_request request md) /\
    fst (run (update_metadata env request)) =
      [IndexSchemaSetup; S3ClientInit; IndexLookup uri; S3Download key;
       ExifToolRun temp_path; S3Upload key; TempUnlink;
       if String.eqb id "" then IndexDeleteByUri uri else IndexDeleteById id;
       IndexAdd (mkDocument pc (fst (apply_request request md)))].
Proof.
  destruct (run (update_metadata env request)) as [tr r] eqn:H. intros Hr0 uri key.
  simpl in Hr0 |- *. subst r.
  destruct (update_metadata_cases env request tr (Ok fields) H)
    as [[id [md [pc [Hr [Hs [_ [_ [_ [_ [_ Htr]]]]]]]]]]|[e [He _]]]; [|discriminate].
  injection Hr as ->. exists id, md, pc. auto.
Qed.

(** A failed [update_metadata] never inserts an index record. It removes
    the old record in one case only: the insertion ([add_documents],
    which computes the embedding) raised after the deletion, and by then
    the re-tagged image had already been uploaded. The update is not
    transactional: the object store holds the new image while the index
    has lost its record. *)
Theorem update_metadata_failure_index_effects env request e :
  snd (run (update_metadata env request)) = Raise e ->
  let key := py_replace (req_s3_uri request)
               ("s3://" ++ aws_bucket_name env ++ "/") "" in
  (forall d, ~ In (IndexAdd d) (fst (run (update_metadata env request)))) /\
  (forall e', In e' (fst (run (update_metadata env request))) ->
     is_index_record_write e' = true ->
     index_add_ok env = false /\ upload_ok env = true /\
     In (S3Upload key) (fst (run (update_metadata env request)))).
Proof.
  destruct (run (update_metadata env request)) as [tr r] eqn:H. intros Hr0 key.
  simpl in Hr0 |- *. subst r.
  destruct (update_metadata_cases env request tr (Raise e) H)
    as [[id [md [pc [Hr _]]]]|[e' [_ [Hadd [Hw _]]]]]; [discriminate|].
  split; [exact Hadd|exact Hw].
Qed.

(** Once the re-upload of the image has succeeded, [update_metadata]
    succeeds exactly when the two index steps after it (deleting the old
    record, adding the rebuilt one) succeed: the text rebuild between
    them cannot raise, since ExifTool was only reached with [materials]
    and [process] values the rebuild can join. *)
Theorem update_metadata_after_upload env request :
  upload_ok env = true ->
  In (S3Upload (py_replace (req_s3_uri request) ("s3://" ++ aws_bucket_name env ++ "/") ""))
     (fst (run (update_metadata env request))) ->
  ((exists fields, snd (run (update_metadata env request)) = Ok fields) <->
   (index_delete_ok env = true /\ index_add_ok env = true)).
Proof.
  destruct (run (update_metadata env request)) as [tr r] eqn:H. simpl. intros Hu Hin.
  destruct (update_metadata_cases env request tr r H)
    as [[id [md [pc [Hr [_ [_ [_ [Hd [Ha _]]]]]]]]]|[e' [Hr [_ [_ Hidx]]]]].
  - split; [intros _; split; assumption|intros _; eexists; exact Hr].
  - split.
    + intros [fields Hf]. rewrite Hr in Hf. discriminate.
    + intros [Hd Ha]. destruct (Hidx Hu Hin) as [E|E]; congruence.
Qed.

(** [hybrid_search] returns exactly [min(k, n)] results, where [n] is
    the number of distinct non-empty filenames among the [3k] semantic
    candidates; in particular nothing when there is no candidate. *)
Theorem hybrid_search_length sem kw query k w :
  List.length (VectorStore.hybrid_search sem kw query k w) =
  Nat.min k (List.length (nodup string_dec (candidate_filenames (sem query (k * 3)%nat)))).
Proof. apply hybrid_search_length_eq. Qed.

(** With hybrid search, [search_images] reports [total_count =
    min(min(k, 50), n)], where [n] is the number of distinct filenames
    among the semantic candidates fetched for the capped [k]: the cap
    bounds the count by 50 whatever [k] the request asks for. *)
Theorem search_images_hybrid_total_count sem kw request :
  use_hybrid request = true ->
  total_count (search_images sem kw request) =
  Nat.min (Nat.min (k request) 50)
    (List.length (nodup string_dec
       (candidate_filenames (sem (query request) (Nat.min (k request) 50 * 3)%nat)))).
Proof.
  intros Hh. unfold search_images, results_with_scores. rewrite Hh. simpl.
  apply hybrid_search_length_eq.
Qed.

(** With [AWS_S3_BUCKET] unset, [update_metadata] answers 500 before any
    lookup, whatever the request and the stored records: only the vector
    store's schema setup has run. *)
Theorem update_metadata_unset_bucket env request :
  aws_bucket_name env = "" ->
  run (update_metadata env request) = ([IndexSchemaSetup], Raise 500%nat).
Proof.
  intros Hb. unfold run, update_metadata, bind, emit, ret, raise.
  destruct (vs_init_ok env); [|reflexivity]. rewrite Hb. reflexivity.
Qed.

(** A stored row without a ['description'] key cannot be updated:
    [get_document_by_s3_uri] raises [KeyError] on
    [langchain_metadata['description']] and the request fails with 500
    right after the lookup, before any object-store operation. *)
Theorem update_metadata_row_without_description env request id md :
  vs_init_ok env = true -> aws_bucket_name env <> "" ->
  select_by_s3_uri env (req_s3_uri request) = Row id md ->
  dict_get "description" md = None ->
  run (update_metadata env request) =
    ([IndexSchemaSetup; S3ClientInit; IndexLookup (req_s3_uri request)], Raise 500%nat).
Proof.
  intros Hvs Hb Hs Hd.
  unfold run, update_metadata, get_document_by_s3_uri, bind, emit, ret, raise.
  rewrite Hvs. apply String.eqb_neq in Hb. rewrite Hb. simpl.
  rewrite Hs, Hd. reflexivity.
Qed.

(** A failed [process_images] adds no document to the index, even when
    it fails after the uploads (for instance when [add_documents]
    raises): the images may then sit in the object store with no index
    record. *)
Theorem process_images_failure_indexes_nothing env request email e :
  snd (run (process_images env request email)) = Raise e ->
  added_docs (fst (run (process_images env request email))) = [].
Proof.
  destruct (run (process_images env request email)) as [tr r] eqn:H. simpl. intros ->.
  destruct (process_images_cases env request email _ tr (Raise e) eq_refl H)
    as [[e' [_ Hnil]]|[pre [img [_ [_ [_ [_ [_ Hr]]]]]]]]; [exact Hnil|discriminate].
Qed.

(* ------------------------------------------------------------------ *)
(** ** Concrete instances of the further properties *)

Ltac pick_in := repeat first [left; reflexivity | right].

Lemma hybrid_search_distance_bounds_witness :
  exists x,
    In (scenario_doc "A", x)
       (VectorStore.hybrid_search scenario_semantic scenario_keyword_rows "q" 3 (1 # 2)) /\
    exists d, In (scenario_doc "A", d) (scenario_semantic "q" 9) /\
              (0 <= d -> 0 <= x /\ x <= d).
Proof.
  set (out := VectorStore.hybrid_search scenario_semantic scenario_keyword_rows "q" 3 (1 # 2)).
  exists (snd (nth 0 out (scenario_doc "", 0))).
  assert (Hin : In (scenario_doc "A", snd (nth 0 out (scenario_doc "", 0))) out).
  { subst out. vm_compute. left. reflexivity. }
  split; [exact Hin|].
  exact (hybrid_search_distance_bounds scenario_semantic scenario_keyword_rows "q" 3 (1 # 2)
           (scenario_doc "A") _ Hin).
Defined.

Lemma process_images_person_is_user_witness :
  exists d,
    In (IndexAdd d)
       (fst (run (process_images sample_process_env sample_process_request "bob@example.com"))) /\
    dict_get "person" (metadata d) = Some (VStr "bob@example.com") /\
    dict_get "s3_uri" (metadata d) = Some VNone.
Proof.
  set (tr := fst (run (process_images sample_process_env sample_process_request
                         "bob@example.com"))).
  exists (nth 0 (added_docs tr) (mkDocument "" [])).
  assert (Hin : In (IndexAdd (nth 0 (added_docs tr) (mkDocument "" []))) tr).
  { subst tr. vm_compute. pick_in. }
  exact (conj Hin (process_images_person_is_user sample_process_env sample_process_request
                     "bob@example.com" _ Hin)).
Defined.

Lemma process_images_missing_path_witness :
  In "/tmp/mechlib_uploads/hinge.png" (paths sample_process_request) /\
  path_exists missing_file_env "/tmp/mechlib_uploads/hinge.png" = false /\
  run (process_images missing_file_env sample_process_request "bob@example.com") =
    ([], Raise 404%nat).
Proof.
  split; [simpl; auto|]. split; [reflexivity|].
  apply (process_images_missing_path missing_file_env sample_process_request
           "bob@example.com" "/tmp/mechlib_uploads/hinge.png"); [simpl; auto|reflexivity].
Defined.

Lemma process_images_success_counts_witness :
  exists img,
    snd (run (process_images sample_process_env sample_process_request "bob@example.com")) =
      Ok (2%nat, img) /\
    img <> [] /\
    List.length (added_docs (fst (run (process_images sample_process_env
                                         sample_process_request "bob@example.com")))) = 2%nat.
Proof.
  pose (img := match snd (run (process_images sample_process_env sample_process_request
                                  "bob@example.com")) with
               | Ok (_, i) => i | Raise _ => [] end).
  assert (E : snd (run (process_images sample_process_env sample_process_request
                          "bob@example.com")) = Ok (2%nat, img)).
  { subst img. vm_compute. reflexivity. }
  destruct (process_images_success_counts _ _ _ _ _ E) as [_ [Hi Hl]].
  exists img. auto.
Defined.

Lemma search_images_created_doc_500_witness :
  In (make_document sample_metadata, 1 # 10)
     (results (search_images (fun _ _ => [(make_document sample_metadata, 1 # 10)])
                 (fun _ _ => []) (mkSearchRequest "q" 3 (1 # 2) false (1 # 2)))) /\
  search_images_handler (fun _ _ => [(make_document sample_metadata, 1 # 10)])
    (fun _ _ => []) true (fun s => Some s) (mkSearchRequest "q" 3 (1 # 2) false (1 # 2)) =
    Raise 500%nat.
Proof.
  assert (Hin : In (make_document sample_metadata, 1 # 10)
     (results (search_images (fun _ _ => [(make_document sample_metadata, 1 # 10)])
                 (fun _ _ => []) (mkSearchRequest "q" 3 (1 # 2) false (1 # 2))))).
  { vm_compute. left. reflexivity. }
  exact (conj Hin (search_images_created_doc_500 _ _ true (fun s => Some s) _ _ _ Hin)).
Defined.

Lemma add_files_all_uploaded_witness :
  exists img,
    run (add_files "mechlib-images" (fun _ => UploadOk) (Some "parts")
           ["/tmp/mechlib_uploads/switch.png"; "/tmp/mechlib_uploads/hinge.png"] []) =
      ([S3Upload "parts/switch.png"; S3Upload "parts/hinge.png"], Ok img) /\
    dict_get "hinge.png" img = Some "s3://mechlib-images/parts/hinge.png".
Proof.
  destruct (add_files_all_uploaded "mechlib-images" (fun _ => UploadOk) (Some "parts")
              ["/tmp/mechlib_uploads/switch.png"; "/tmp/mechlib_uploads/hinge.png"])
    as [img [Hr [Hg _]]]; [intros; reflexivity|].
  exists img. split; [exact Hr|].
  exact (Hg "/tmp/mechlib_uploads/hinge.png" (or_intror (or_introl eq_refl))).
Defined.

Lemma add_files_client_error_stops_witness :
  exists img,
    run (add_files "mechlib-images" hinge_client_error (Some "parts")
           ["/tmp/mechlib_uploads/switch.png"; "/tmp/mechlib_uploads/hinge.png";
            "/tmp/mechlib_uploads/gear.png"] []) =
      ([S3Upload "parts/switch.png"; S3Upload "parts/hinge.png"], Ok img) /\
    run (add_files "mechlib-images" hinge_client_error (Some "parts")
           ["/tmp/mechlib_uploads/switch.png"] []) =
      ([S3Upload "parts/switch.png"], Ok img).
Proof.
  apply (add_files_client_error_stops "mechlib-images" hinge_client_error (Some "parts")
           ["/tmp/mechlib_uploads/switch.png"] "/tmp/mechlib_uploads/hinge.png"
           ["/tmp/mechlib_uploads/gear.png"]).
  - intros g [<-|[]]. reflexivity.
  - reflexivity.
Defined.

Lemma s3_key_round_trip_witness :
  occurs_in ("s3://" ++ "mechlib-images" ++ "/") "parts/switch.png" = false /\
  py_replace ("s3://" ++ "mechlib-images" ++ "/" ++ "parts/switch.png")
    ("s3://" ++ "mechlib-images" ++ "/") "" = "parts/switch.png".
Proof.
  assert (H : occurs_in ("s3://" ++ "mechlib-images" ++ "/") "parts/switch.png" = false)
    by (vm_compute; reflexivity).
  exact (conj H (s3_key_round_trip "mechlib-images" "parts/switch.png" H)).
Defined.

Lemma update_metadata_success_trace_witness :
  exists fields,
    snd (run (update_metadata exif_fail_env sample_update_request)) = Ok fields /\
    List.length (fst (run (update_metadata exif_fail_env sample_update_request))) = 9%nat /\
    exists id md, select_by_s3_uri exif_fail_env (req_s3_uri sample_update_request) = Row id md /\
                  fields = snd (apply_request sample_update_request md).
Proof.
  pose (fields := match snd (run (update_metadata exif_fail_env sample_update_request)) with
                  | Ok f => f | Raise _ => [] end).
  assert (E : snd (run (update_metadata exif_fail_env sample_update_request)) = Ok fields).
  { subst fields. vm_compute. reflexivity. }
  destruct (update_metadata_success_trace exif_fail_env sample_update_request fields E)
    as [id [md [pc [Hs [Hf Htr]]]]].
  exists fields. split; [exact E|]. split; [rewrite Htr; reflexivity|].
  exists id, md. auto.
Defined.

Lemma update_metadata_failure_index_effects_witness :
  snd (run (update_metadata add_fails_env sample_update_request)) = Raise 500%nat /\
  In (IndexDeleteById "id1") (fst (run (update_metadata add_fails_env sample_update_request))) /\
  index_add_ok add_fails_env = false /\
  In (S3Upload "switch.png") (fst (run (update_metadata add_fails_env sample_update_request))).
Proof.
  assert (Hr : snd (run (update_metadata add_fails_env sample_update_request)) = Raise 500%nat)
    by (vm_compute; reflexivity).
  assert (Hin : In (IndexDeleteById "id1")
                   (fst (run (update_metadata add_fails_env sample_update_request))))
    by (vm_compute; pick_in).
  destruct (update_metadata_failure_index_effects _ _ _ Hr) as [_ Hw].
  destruct (Hw _ Hin eq_refl) as [Ha [_ Hup]].
  split; [exact Hr|]. split; [exact Hin|]. split; [exact Ha|exact Hup].
Defined.

Lemma update_metadata_after_upload_witness :
  upload_ok exif_fail_env = true /\
  In (S3Upload "switch.png") (fst (run (update_metadata exif_fail_env sample_update_request))) /\
  exists fields, snd (run (update_metadata exif_fail_env sample_update_request)) = Ok fields.
Proof.
  assert (Hin : In (S3Upload (py_replace (req_s3_uri sample_update_request)
                                ("s3://" ++ aws_bucket_name exif_fail_env ++ "/") ""))
                   (fst (run (update_metadata exif_fail_env sample_update_request)))).
  { vm_compute. pick_in. }
  split; [reflexivity|]. split; [exact Hin|].
  exact (proj2 (update_metadata_after_upload exif_fail_env sample_update_request eq_refl Hin)
           (conj eq_refl eq_refl)).
Defined.

Lemma process_images_records_not_updatable_witness :
  run (update_metadata
         (mkUpdateEnv "mechlib-images" (select_by_s3_uri_rows sample_created_rows) true
            (Completed 0%Z) true true true true true)
         sample_update_request) =
  ([IndexSchemaSetup; S3ClientInit; IndexLookup "s3://mechlib-images/switch.png"],
   Raise 404%nat).
Proof.
  apply (process_images_records_not_updatable sample_created_rows);
    [|reflexivity|reflexivity|simpl; discriminate].
  intros row Hin. apply in_app_or in Hin as [Hin|Hin]; eapply created_rows_of_run; exact Hin.
Defined.

Lemma process_images_records_not_deletable_witness :
  snd (run (delete_image
              (mkDeleteEnv "mechlib-images" DeleteObjectRaised
                 (DeleteRowcount (delete_by_s3_uri_rowcount sample_created_rows
                                    "s3://mechlib-images/switch.png")))
              (mkDeleteImageRequest "s3://mechlib-images/switch.png" "switch.png"))) =
  Raise 500%nat.
Proof.
  apply (process_images_records_not_deletable sample_created_rows); [|right; reflexivity].
  intros row Hin. apply in_app_or in Hin as [Hin|Hin]; eapply created_rows_of_run; exact Hin.
Defined.

Lemma search_images_hybrid_total_count_witness :
  use_hybrid scenario_B_request = true /\
  total_count (search_images scenario_semantic scenario_keyword_rows scenario_B_request) = 3%nat.
Proof.
  split; [reflexivity|].
  rewrite (search_images_hybrid_total_count scenario_semantic scenario_keyword_rows
             scenario_B_request eq_refl).
  vm_compute. reflexivity.
Defined.

Lemma update_metadata_unset_bucket_witness :
  aws_bucket_name unset_bucket_env = "" /\
  run (update_metadata unset_bucket_env sample_update_request) =
    ([IndexSchemaSetup], Raise 500%nat).
Proof.
  split; [reflexivity|]. exact (update_metadata_unset_bucket unset_bucket_env sample_update_request eq_refl).
Defined.

Lemma update_metadata_row_without_description_witness :
  dict_get "description" [("filename", VStr "switch.png")] = None /\
  run (update_metadata no_description_env sample_update_request) =
    ([IndexSchemaSetup; S3ClientInit; IndexLookup "s3://mechlib-images/switch.png"],
     Raise 500%nat).
Proof.
  split; [reflexivity|].
  apply (update_metadata_row_without_description no_description_env sample_update_request
           "id1" [("filename", VStr "switch.png")]);
    [reflexivity|simpl; discriminate|reflexivity|reflexivity].
Defined.

Lemma process_images_failure_indexes_nothing_witness :
  snd (run (process_images index_fail_process_env sample_process_request "bob@example.com")) =
    Raise 500%nat /\
  In (S3Upload "parts/switch.png")
     (fst (run (process_images index_fail_process_env sample_process_request
                  "bob@example.com"))) /\
  added_docs (fst (run (process_images index_fail_process_env sample_process_request
                          "bob@example.com"))) = [].
Proof.
  assert (Hr : snd (run (process_images index_fail_process_env sample_process_request
                           "bob@example.com")) = Raise 500%nat) by (vm_compute; reflexivity).
  split; [exact Hr|]. split; [vm_compute; pick_in|].
  exact (process_images_failure_indexes_nothing _ _ _ _ Hr).
Defined.
